(** * ebaysdk.browse: the Browse API connection

    A shallow embedding of [ebaysdk/browse/__init__.py] (class [Connection]):
    the request builder, the OAuth2 token accessor and the extraction of
    errors from a response, with the properties the specification states
    about them. *)

From Stdlib Require Import String Ascii ZArith List Bool Lia DecimalString.
Import ListNotations.

Set Warnings "-register-all".

Local Open Scope list_scope.
Local Open Scope string_scope.

(** ** Python values *)

(** The values that travel through the connection: request parameters,
    configuration entries and decoded JSON documents.  A [dict] is kept as an
    association list in insertion order, which is the order a Python [dict]
    iterates in; its keys are strings and occur once.  Floating point numbers
    are left out. *)
Inductive value : Type :=
| VNone
| VBool (b : bool)
| VInt (n : Z)
| VStr (s : string)
| VList (l : list value)
| VDict (d : list (string * value)).

(** Induction over values that also descends into lists and dicts. *)
Section ValueInd.
Variable P : value -> Prop.
Hypothesis HNone : P VNone.
Hypothesis HBool : forall b, P (VBool b).
Hypothesis HInt : forall n, P (VInt n).
Hypothesis HStr : forall s, P (VStr s).
Hypothesis HList : forall l, Forall P l -> P (VList l).
Hypothesis HDict : forall d, Forall (fun kv => P (snd kv)) d -> P (VDict d).

Fixpoint value_nested_ind (v : value) : P v :=
  match v with
  | VNone => HNone
  | VBool b => HBool b
  | VInt n => HInt n
  | VStr s => HStr s
  | VList l =>
      HList l
        ((fix go (xs : list value) : Forall P xs :=
            match xs with
            | [] => Forall_nil P
            | x :: xs' => Forall_cons x (value_nested_ind x) (go xs')
            end) l)
  | VDict d =>
      HDict d
        ((fix go (xs : list (string * value))
            : Forall (fun kv => P (snd kv)) xs :=
            match xs with
            | [] => Forall_nil _
            | kv :: xs' =>
                Forall_cons kv (value_nested_ind (snd kv)) (go xs')
            end) d)
  end.
End ValueInd.

(** [d.get(key)]: the value bound to [key], if any. *)
Fixpoint dict_get (key : string) (d : list (string * value)) : option value :=
  match d with
  | [] => None
  | (k, v) :: d' => if String.eqb key k then Some v else dict_get key d'
  end.

(** [key in d] for a dict. *)
Definition dict_mem (key : string) (d : list (string * value)) : bool :=
  match dict_get key d with
  | Some _ => true
  | None => false
  end.

(** [d.get(key, default)]. *)
Definition dict_get_default (key : string) (d : list (string * value))
    (default : value) : value :=
  match dict_get key d with
  | Some v => v
  | None => default
  end.

(** The keys of a Python dict are pairwise different, at every depth. *)
Fixpoint wf_value (v : value) : Prop :=
  match v with
  | VList l =>
      (fix go (xs : list value) : Prop :=
         match xs with
         | [] => True
         | x :: xs' => wf_value x /\ go xs'
         end) l
  | VDict d =>
      NoDup (map fst d) /\
      (fix go (xs : list (string * value)) : Prop :=
         match xs with
         | [] => True
         | kv :: xs' => wf_value (snd kv) /\ go xs'
         end) d
  | _ => True
  end.

(** Truth value of an object, as [not x] and [if x] test it. *)
Definition truthy (v : value) : bool :=
  match v with
  | VNone => false
  | VBool b => b
  | VInt n => negb (Z.eqb n 0)
  | VStr s => negb (String.eqb s EmptyString)
  | VList l => match l with [] => false | _ => true end
  | VDict d => match d with [] => false | _ => true end
  end.

(** [x is None]. *)
Definition is_None (v : value) : bool :=
  match v with
  | VNone => true
  | _ => false
  end.

Section Comparison.
Variable eq : value -> value -> bool.

(** Two lists of the same length whose items are equal one by one. *)
Fixpoint all2 (xs ys : list value) {struct xs} : bool :=
  match xs, ys with
  | [], [] => true
  | x :: xs', y :: ys' => eq x y && all2 xs' ys'
  | _, _ => false
  end.

(** Every key of [xs] is a key of [db], with an equal value. *)
Fixpoint dict_sub (db xs : list (string * value)) {struct xs} : bool :=
  match xs with
  | [] => true
  | kv :: xs' =>
      match dict_get (fst kv) db with
      | Some v' => eq (snd kv) v'
      | None => false
      end && dict_sub db xs'
  end.
End Comparison.

(** [a == b].  [True] and [False] compare equal to [1] and [0]; lists compare
    item by item; dicts are equal when they have as many keys and every key
    of the one is a key of the other with an equal value. *)
Fixpoint py_eq (a b : value) {struct a} : bool :=
  match a, b with
  | VNone, VNone => true
  | VBool x, VBool y => Bool.eqb x y
  | VBool x, VInt n => Z.eqb (if x then 1 else 0) n
  | VInt n, VBool y => Z.eqb n (if y then 1 else 0)
  | VInt n, VInt m => Z.eqb n m
  | VStr s, VStr t => String.eqb s t
  | VList la, VList lb => all2 py_eq la lb
  | VDict da, VDict db =>
      Nat.eqb (length da) (length db) && dict_sub py_eq db da
  | _, _ => false
  end.

(** [x in l] for a list [l]. *)
Definition list_mem (x : value) (l : list value) : bool :=
  existsb (py_eq x) l.

(** [s in l] for a list of string literals. *)
Definition str_in (s : string) (l : list string) : bool :=
  existsb (String.eqb s) l.

(** [needle in haystack] for two strings. *)
Fixpoint is_substring (needle haystack : string) : bool :=
  String.prefix needle haystack ||
  match haystack with
  | EmptyString => false
  | String _ rest => is_substring needle rest
  end.

(** The decimal numeral of an integer. *)
Definition str_of_Z (n : Z) : string :=
  NilZero.string_of_int (Z.to_int n).


(** [sep.join(l)]. *)
Fixpoint join (sep : string) (l : list string) : string :=
  match l with
  | [] => EmptyString
  | [x] => x
  | x :: rest => x ++ sep ++ join sep rest
  end.

(** The line feed of ["\n"]. *)
Definition LF : string := String (ascii_of_nat 10) EmptyString.

(** The characters of a string, each a string of length one. *)
Fixpoint chars (s : string) : list value :=
  match s with
  | EmptyString => []
  | String c rest => VStr (String c EmptyString) :: chars rest
  end.

(** ** Exceptions and results *)

(** The exceptions the module raises itself ([ValueError],
    [ConnectionError]), the two it catches from the token request
    ([OAuth2Error], [RequestException]), and those of the interpreter and of
    the libraries that pass through it. *)
Inductive exn : Type :=
| ValueError (msg : string)
| ConnectionError (msg : string)
| OAuth2Error (msg : string)
| RequestException (msg : string)
| JSONDecodeError (msg : string)
| TypeError (msg : string)
| AttributeError (msg : string)
| KeyError (msg : string)
| OtherException (msg : string).

(** [str(e)]. *)
Definition exn_str (e : exn) : string :=
  match e with
  | ValueError m | ConnectionError m | OAuth2Error m | RequestException m
  | JSONDecodeError m | TypeError m | AttributeError m | KeyError m
  | OtherException m => m
  end.

Inductive result (A : Type) : Type :=
| Ok (a : A)
| Raise (e : exn).

Arguments Ok {A} a.
Arguments Raise {A} e.

(** What [for x in v] iterates over: the items of a list, the keys of a dict,
    the characters of a string; anything else is not iterable. *)
Definition py_iter (v : value) : result (list value) :=
  match v with
  | VList l => Ok l
  | VDict d => Ok (map (fun kv => VStr (fst kv)) d)
  | VStr s => Ok (chars s)
  | _ => Raise (TypeError "object is not iterable")
  end.

(** ** The token, the configuration, requests and responses *)

(** The OAuth2 token the token endpoint answers with. *)
Module OAuth2Token.
Record t : Type := make {
  access_token : string;
  expires_at : option Z
}.
End OAuth2Token.

(** The keys of [self.config] the module reads.  The constructor sets every
    one of them (lines 74-88), [https] to [True] by force, so a lookup never
    falls back on its default. *)
Record Config : Type := {
  domain : string;
  uri : string;
  https : bool;
  warnings : bool;
  errors : bool;
  siteid : string;
  appid : value;
  certid : value
}.

(** The arguments of [requests.Request].  [prepare] turns them into the
    request that is sent, or raises; the prepared request that
    [self.request] holds is kept here as the arguments it was prepared
    from. *)
Record Request : Type := {
  req_method : string;
  req_url : string;
  req_params : option (list (string * value));
  req_data : string;
  req_headers : list (string * string);
  req_files : value
}.

(** What the module reads of a [requests.Response]: the status, the reason
    phrase and what [json()] returns or raises. *)
Record Response : Type := {
  status_code : Z;
  reason : string;
  json : result value
}.

(** The arguments of the token request: those of [OAuth2Session] and those of
    [fetch_token]. *)
Record TokenRequest : Type := {
  client_id : value;
  client_secret : value;
  scope : string;
  token_endpoint_auth_method : string;
  url : string;
  grant_type : string
}.

(** The names the module imports and the interpreter's own [repr]. *)
Class Imports : Type := {
  (** [repr] of a list or of a dict, which is their [str]. *)
  repr_container : value -> string;
  (** [json.dumps]. *)
  json_dumps : value -> string;
  (** [ebaysdk.utils.smart_encode]. *)
  smart_encode : value -> value;
  (** [ebaysdk.utils.smart_encode_request_data]. *)
  smart_encode_request_data : string -> string;
  (** [ebaysdk.UserAgent]. *)
  UserAgent : string;
  (** [ebaysdk.connection.HTTP_SSL], a table from the [https] flag to the
      scheme. *)
  HTTP_SSL : bool -> string;
  (** The truth value of [OAuth2Token.is_expired()] at a given time. *)
  is_expired : OAuth2Token.t -> Z -> bool;
  (** What [requests.Request.prepare] raises for the arguments of a request,
      when it raises: files beside a body that is text or bytes, a URL or a
      header it does not accept. *)
  prepare_raises : Request -> option exn
}.

(** [str(v)], which is also what [%s], a field of an f-string and
    [str.format] put in the text. *)
Definition py_str `{Imports} (v : value) : string :=
  match v with
  | VNone => "None"
  | VBool true => "True"
  | VBool false => "False"
  | VInt n => str_of_Z n
  | VStr s => s
  | _ => repr_container v
  end.

(** ** The connection and the world around it *)

Inductive level : Type := WARNING | ERROR.

(** The attributes of [self] the module reads and writes. *)
Record Connection : Type := {
  config : Config;
  verb : option string;
  method : string;
  _request_dict : value;
  request : option Request;
  response : option Response;
  _response_error : option string;
  _resp_body_errors : list string;
  _resp_body_warnings : list string;
  _resp_codes : list value;
  _token : option OAuth2Token.t
}.

(** What is outside the process: the clock, the token endpoint (its answer may
    depend on the requests made before), the token requests made so far and
    the records handed to [log]. *)
Record World : Type := {
  now : Z;
  token_endpoint : list TokenRequest -> TokenRequest -> result OAuth2Token.t;
  token_requests : list TokenRequest;
  log : list (level * string)
}.

Definition set_verb (v : option string) (c : Connection) : Connection :=
  {| config := config c; verb := v; method := method c;
     _request_dict := _request_dict c; request := request c;
     response := response c; _response_error := _response_error c;
     _resp_body_errors := _resp_body_errors c;
     _resp_body_warnings := _resp_body_warnings c;
     _resp_codes := _resp_codes c; _token := _token c |}.

Definition set_method (m : string) (c : Connection) : Connection :=
  {| config := config c; verb := verb c; method := m;
     _request_dict := _request_dict c; request := request c;
     response := response c; _response_error := _response_error c;
     _resp_body_errors := _resp_body_errors c;
     _resp_body_warnings := _resp_body_warnings c;
     _resp_codes := _resp_codes c; _token := _token c |}.

Definition set_request_dict (d : value) (c : Connection) : Connection :=
  {| config := config c; verb := verb c; method := method c;
     _request_dict := d; request := request c;
     response := response c; _response_error := _response_error c;
     _resp_body_errors := _resp_body_errors c;
     _resp_body_warnings := _resp_body_warnings c;
     _resp_codes := _resp_codes c; _token := _token c |}.

Definition set_request (r : option Request) (c : Connection) : Connection :=
  {| config := config c; verb := verb c; method := method c;
     _request_dict := _request_dict c; request := r;
     response := response c; _response_error := _response_error c;
     _resp_body_errors := _resp_body_errors c;
     _resp_body_warnings := _resp_body_warnings c;
     _resp_codes := _resp_codes c; _token := _token c |}.

Definition set_response_error (e : option string) (c : Connection)
    : Connection :=
  {| config := config c; verb := verb c; method := method c;
     _request_dict := _request_dict c; request := request c;
     response := response c; _response_error := e;
     _resp_body_errors := _resp_body_errors c;
     _resp_body_warnings := _resp_body_warnings c;
     _resp_codes := _resp_codes c; _token := _token c |}.

Definition set_resp_body (errs warns : list string) (codes : list value)
    (c : Connection) : Connection :=
  {| config := config c; verb := verb c; method := method c;
     _request_dict := _request_dict c; request := request c;
     response := response c; _response_error := _response_error c;
     _resp_body_errors := errs;
     _resp_body_warnings := warns;
     _resp_codes := codes; _token := _token c |}.

Definition set_token (t : option OAuth2Token.t) (c : Connection)
    : Connection :=
  {| config := config c; verb := verb c; method := method c;
     _request_dict := _request_dict c; request := request c;
     response := response c; _response_error := _response_error c;
     _resp_body_errors := _resp_body_errors c;
     _resp_body_warnings := _resp_body_warnings c;
     _resp_codes := _resp_codes c; _token := t |}.

Definition add_token_request (r : TokenRequest) (w : World) : World :=
  {| now := now w; token_endpoint := token_endpoint w;
     token_requests := (token_requests w ++ [r])%list; log := log w |}.

Definition add_log (l : level) (msg : string) (w : World) : World :=
  {| now := now w; token_endpoint := token_endpoint w;
     token_requests := token_requests w;
     log := (log w ++ [(l, msg)])%list |}.

(** A method of the connection: it reads and changes [self] and the world,
    and returns or raises.  What it changed before raising stays changed. *)
Definition M (A : Type) : Type :=
  Connection -> World -> result A * Connection * World.

Definition ret {A} (a : A) : M A := fun c w => (Ok a, c, w).

Definition raise {A} (e : exn) : M A := fun c w => (Raise e, c, w).

(** Sequencing of results without a state. *)
Definition rbind {A B} (r : result A) (k : A -> result B) : result B :=
  match r with
  | Ok a => k a
  | Raise e => Raise e
  end.

Definition bind {A B} (m : M A) (k : A -> M B) : M B :=
  fun c w =>
    match m c w with
    | (Ok a, c', w') => k a c' w'
    | (Raise e, c', w') => (Raise e, c', w')
    end.

Definition lift {A} (r : result A) : M A := fun c w => (r, c, w).

Definition self : M Connection := fun c w => (Ok c, c, w).

Definition world : M World := fun c w => (Ok w, c, w).

Definition update (f : Connection -> Connection) : M unit :=
  fun c w => (Ok tt, f c, w).

Definition effect (f : World -> World) : M unit :=
  fun c w => (Ok tt, c, f w).

Declare Scope method_scope.
Delimit Scope method_scope with method.

Notation "x <- m ;; k" := (bind m (fun x => k))
  (at level 100, m at next level, right associativity) : method_scope.
Notation "m ;; k" := (bind m (fun _ => k))
  (at level 100, right associativity) : method_scope.

(** The value returned, the connection and the world after a call. *)
Definition returned {A} (r : result A * Connection * World) : result A :=
  fst (fst r).

Definition conn_after {A} (r : result A * Connection * World) : Connection :=
  snd (fst r).

Definition world_after {A} (r : result A * Connection * World) : World :=
  snd r.

(** ** Operators of the interpreter the methods use *)

(** [isinstance(v, dict)]. *)
Definition isinstance_dict (v : value) : bool :=
  match v with
  | VDict _ => true
  | _ => false
  end.

(** [v.items()] of a dict. *)
Definition items (v : value) : list (string * value) :=
  match v with
  | VDict d => d
  | _ => []
  end.

(** [key in v] for a string [key]: a key of a dict, an item of a list, a
    substring of a string; other objects are not containers. *)
Definition py_contains (key : string) (v : value) : result bool :=
  match v with
  | VDict d => Ok (dict_mem key d)
  | VList l => Ok (list_mem (VStr key) l)
  | VStr s => Ok (is_substring key s)
  | _ => Raise (TypeError "argument is not iterable")
  end.

(** [v[key]] for a string [key]. *)
Definition py_getitem (v : value) (key : string) : result value :=
  match v with
  | VDict d =>
      match dict_get key d with
      | Some x => Ok x
      | None => Raise (KeyError key)
      end
  | VList _ | VStr _ => Raise (TypeError "indices must be integers")
  | _ => Raise (TypeError "object is not subscriptable")
  end.

(** [table.get(key, default)] for a table of strings. *)
Fixpoint table_get (key : string) (table : list (string * string))
    (default : string) : string :=
  match table with
  | [] => default
  | (k, v) :: rest =>
      if String.eqb key k then v else table_get key rest default
  end.

(** [template.format(item_id=...)] for a template whose replacement fields
    are all [{item_id}]: each is replaced by the text of the argument.
    [skip] counts the characters of a field still to be passed over. *)
Fixpoint format_from (skip : nat) (template item_id : string) : string :=
  match template with
  | EmptyString => EmptyString
  | String ch rest =>
      match skip with
      | S n => format_from n rest item_id
      | O =>
          if String.prefix "{item_id}" template
          then item_id ++ format_from 8 rest item_id
          else String ch (format_from 0 rest item_id)
      end
  end.

Definition format_item_id (template item_id : string) : string :=
  format_from 0 template item_id.

(** ** The methods of [Connection] *)

Section Methods.
Context `{Imports}.

Local Open Scope method_scope.

(** [not hasattr(self, '_token') or self._token.is_expired()]. *)
Definition token_absent_or_expired (c : Connection) (w : World) : bool :=
  match _token c with
  | None => true
  | Some token => is_expired token (now w)
  end.

(** The client-credentials request of lines 246-256: the session is set up
    with the application id as client id and the certificate id as client
    secret, and asks the token endpoint of the configured domain. *)
Definition token_request (c : Connection) : TokenRequest :=
  {| client_id := appid (config c);
     client_secret := certid (config c);
     scope := "https://" ++ domain (config c) ++ "/oauth/api_scope";
     token_endpoint_auth_method := "client_secret_basic";
     url := "https://" ++ domain (config c) ++ "/identity/v1/oauth2/token";
     grant_type := "client_credentials" |}.

(** The [access_token] property (lines 232-260). *)
Definition access_token : M string :=
  c <- self ;;
  w <- world ;;
  (if token_absent_or_expired c w
   then
     let client_id := appid (config c) in
     let client_secret := certid (config c) in
     if negb (truthy client_id) || negb (truthy client_secret)
     then raise (ValueError
       "appid (client id) and certid (client secret) are required for OAuth")
     else
       effect (add_token_request (token_request c)) ;;
       match token_endpoint w (token_requests w) (token_request c) with
       | Ok token => update (set_token (Some token))
       | Raise (OAuth2Error _ as e) | Raise (RequestException _ as e) =>
           raise (ConnectionError
                    ("Failed to get access token: " ++ exn_str e))
       | Raise e => raise e
       end
   else ret tt) ;;
  c' <- self ;;
  match _token c' with
  | Some token => ret (OAuth2Token.access_token token)
  | None => raise (AttributeError "_token")
  end.

(** [build_request_headers] (lines 94-102). *)
Definition build_request_headers (verb : string)
    : M (list (string * string)) :=
  token <- access_token ;;
  c <- self ;;
  ret [ ("Content-Type", "application/json");
        ("Accept", "application/json");
        ("Authorization", "Bearer " ++ token);
        ("User-Agent", UserAgent);
        ("X-EBAY-C-MARKETPLACE-ID", siteid (config c)) ].

(** [build_request_data] (lines 104-108). *)
Definition build_request_data (verb : string) (data verb_attrs : value)
    : string :=
  if str_in verb ["searchByImage"; "checkCompatibility"]
     && isinstance_dict data
  then json_dumps data
  else EmptyString.

(** [build_request_query] (lines 110-119); [None] is [None], a dict is
    [Some] of its items. *)
Definition build_request_query (verb : string) (data : value)
    : option (list (string * value)) :=
  if negb (str_in verb ["searchByImage"; "checkCompatibility"])
     && isinstance_dict data
  then
    Some (map (fun kv => (fst kv, smart_encode (snd kv)))
            (filter
               (fun kv =>
                  (negb (str_in verb ["getItem"; "checkCompatibility"])
                   || negb (String.eqb (fst kv) "item_id"))
                  && negb (is_None (snd kv)))
               (items data)))
  else None.

Definition endpoint_map : list (string * string) :=
  [ ("search", "/item_summary/search");
    ("searchByImage", "/item_summary/search_by_image");
    ("getItem", "/item/{item_id}");
    ("getItemByLegacyId", "/item/get_item_by_legacy_id");
    ("getItems", "/item/");
    ("getItemsByItemGroup", "/item/get_items_by_item_group");
    ("checkCompatibility", "/item/{item_id}/check_compatibility") ].

Definition base_url (c : Connection) : string :=
  HTTP_SSL (https (config c)) ++ "://" ++ domain (config c)
  ++ uri (config c).

(** [build_request_url] (lines 121-148); it only reads [self]. *)
Definition build_request_url (c : Connection) (verb : string)
    : result string :=
  let endpoint := table_get verb endpoint_map ("/" ++ verb) in
  if str_in verb ["getItem"; "checkCompatibility"]
  then
    rbind
      (if negb (truthy (_request_dict c))
       then Ok true
       else rbind (py_contains "item_id" (_request_dict c))
                  (fun b => Ok (negb b)))
      (fun missing =>
         if (missing : bool)
         then Raise (ValueError
                "item_id is required for getItem and checkCompatibility")
         else
           rbind (py_getitem (_request_dict c) "item_id")
             (fun item_id =>
                Ok (base_url c
                    ++ format_item_id endpoint (py_str item_id))))
  else Ok (base_url c ++ endpoint).

(** [build_request] (lines 150-175). *)
Definition build_request (verb : string) (data verb_attrs files : value)
    : M unit :=
  update (set_verb (Some verb)) ;;
  update (set_request_dict data) ;;
  (if str_in verb ["searchByImage"; "checkCompatibility"]
   then update (set_method "POST")
   else update (set_method "GET")) ;;
  c <- self ;;
  url <- lift (build_request_url c verb) ;;
  headers <- build_request_headers verb ;;
  let params := build_request_query verb data in
  let requestData := build_request_data verb data verb_attrs in
  c' <- self ;;
  let req :=
    {| req_method := method c';
       req_url := url;
       req_params := params;
       req_data := smart_encode_request_data requestData;
       req_headers := headers;
       req_files := files |} in
  match prepare_raises req with
  | Some e => raise e
  | None => update (set_request (Some req))
  end.

(** [process_response] (lines 177-181). *)
Definition process_response (parse_response : bool) : M unit :=
  c <- self ;;
  match response c with
  | None => raise (AttributeError "status_code")
  | Some r =>
      if negb (Z.eqb (status_code r) 200)
      then update (set_response_error (Some (reason r)))
      else ret tt
  end.

(** One turn of either loop of [_get_resp_body_errors] (lines 199-207 and
    210-218): the entry's code, and its message. *)
Definition entry_code (entry : list (string * value)) : value :=
  dict_get_default "errorId" entry VNone.

Definition entry_msg (entry : list (string * value)) : string :=
  "Category: " ++ py_str (dict_get_default "category" entry VNone)
  ++ ", Code: " ++ py_str (entry_code entry)
  ++ ", " ++ py_str (dict_get_default "message" entry VNone).

(** [if code not in resp_codes: resp_codes.append(code)]. *)
Definition add_code (code : value) (resp_codes : list value) : list value :=
  if negb (list_mem code resp_codes)
  then (resp_codes ++ [code])%list
  else resp_codes.

(** [add_code] for each of [codes] in turn. *)
Definition add_codes (codes resp_codes : list value) : list value :=
  fold_left (fun acc code => add_code code acc) codes resp_codes.

(** Either loop of [_get_resp_body_errors], from the messages and the codes
    collected so far; [entry.get] needs a dict. *)
Fixpoint collect (entries : list value) (msgs : list string)
    (resp_codes : list value) : result (list string * list value) :=
  match entries with
  | [] => Ok (msgs, resp_codes)
  | VDict entry :: rest =>
      collect rest (msgs ++ [entry_msg entry])%list
        (add_code (entry_code entry) resp_codes)
  | _ :: _ => Raise (AttributeError "get")
  end.

(** The part of [_get_resp_body_errors] between the call of [json()] and
    the assignments (lines 198-218): the errors, the warnings and the
    codes. *)
Definition parse_body (response_data : value)
    : result (list string * list string * list value) :=
  match response_data with
  | VDict d =>
      rbind (py_iter (dict_get_default "errors" d (VList [])))
        (fun es =>
      rbind (collect es [] [])
        (fun r1 =>
      rbind (py_iter (dict_get_default "warnings" d (VList [])))
        (fun ws =>
      rbind (collect ws [] (snd r1))
        (fun r2 => Ok (fst r1, fst r2, snd r2)))))
  | _ => Raise (AttributeError "get")
  end.

(** [_get_resp_body_errors] (lines 183-230). *)
Definition _get_resp_body_errors : M (list string) :=
  c <- self ;;
  if match _resp_body_errors c with [] => false | _ :: _ => true end
  then ret (_resp_body_errors c)
  else
    match verb c with
    | None => ret []
    | Some the_verb =>
        match response c with
        | None => raise (AttributeError "status_code")
        | Some r =>
            if negb (Z.eqb (status_code r) 200)
            then ret []
            else
              response_data <- lift (json r) ;;
              parsed <- lift (parse_body response_data) ;;
              let '(errs, warns, resp_codes) := parsed in
              update (set_resp_body errs warns resp_codes) ;;
              (if warnings (config c)
                  && match warns with [] => false | _ :: _ => true end
               then effect (add_log WARNING
                      (the_verb ++ ": " ++ join LF warns ++ LF ++ LF))
               else ret tt) ;;
              (if errors (config c)
                  && match errs with [] => false | _ :: _ => true end
               then effect (add_log ERROR
                      (the_verb ++ ": " ++ join LF errs ++ LF ++ LF))
               else ret tt) ;;
              ret errs
        end
    end.
End Methods.

(** ** One choice of the imported names, to run the methods on examples *)

(** How a serializer writes the constants and delimits a string. *)
Record literals : Type := {
  lit_none : string;
  lit_true : string;
  lit_false : string;
  lit_quote : string
}.

(** A value written out with [", "] between items and [": "] after a key.
    Strings are written as they are between the quotes, which is right for
    text without quotes, backslashes and control characters. *)
Fixpoint render (q : literals) (v : value) : string :=
  match v with
  | VNone => lit_none q
  | VBool true => lit_true q
  | VBool false => lit_false q
  | VInt n => str_of_Z n
  | VStr s => lit_quote q ++ s ++ lit_quote q
  | VList l => "[" ++ join ", " (map (render q) l) ++ "]"
  | VDict d =>
      "{"
      ++ join ", "
           (map (fun kv =>
                   lit_quote q ++ fst kv ++ lit_quote q ++ ": "
                   ++ render q (snd kv)) d)
      ++ "}"
  end.

Definition json_literals : literals :=
  {| lit_none := "null"; lit_true := "true"; lit_false := "false";
     lit_quote := String (ascii_of_nat 34) EmptyString |}.

Definition python_literals : literals :=
  {| lit_none := "None"; lit_true := "True"; lit_false := "False";
     lit_quote := "'" |}.

(** Python 3 with the libraries as the tests use them: [smart_encode] returns
    its argument, the request body is text that encodes to itself, a token is
    expired from one minute before [expires_at] on and never when it has no
    [expires_at], and [prepare] refuses files, because [build_request] always
    hands it a body that is text or bytes beside them. *)
Definition python3 : Imports :=
  {| repr_container := render python_literals;
     json_dumps := render json_literals;
     smart_encode := fun v => v;
     smart_encode_request_data := fun s => s;
     UserAgent := "eBaySDK/2.3.0 Python/3.8.10 Linux/5.4.0-74-generic";
     HTTP_SSL := fun b => if b then "https" else "http";
     is_expired := fun token t =>
       match OAuth2Token.expires_at token with
       | None => false
       | Some e => Z.ltb (e - 60) t
       end;
     prepare_raises := fun req =>
       if truthy (req_files req)
       then Some (ValueError "Data must not be a string.")
       else None |}.

(** The configuration of the tests' fixture. *)
Definition test_config : Config :=
  {| domain := "api.ebay.com";
     uri := "/buy/browse/v1";
     https := true;
     warnings := true;
     errors := true;
     siteid := "EBAY_US";
     appid := VStr "test_appid";
     certid := VStr "test_certid" |}.

(** A connection before any request: no verb, no response, nothing
    cached. *)
Definition new_connection (cfg : Config) : Connection :=
  {| config := cfg;
     verb := None;
     method := "GET";
     _request_dict := VNone;
     request := None;
     response := None;
     _response_error := None;
     _resp_body_errors := [];
     _resp_body_warnings := [];
     _resp_codes := [];
     _token := None |}.

Definition set_response (r : option Response) (c : Connection) : Connection :=
  {| config := config c; verb := verb c; method := method c;
     _request_dict := _request_dict c; request := request c;
     response := r; _response_error := _response_error c;
     _resp_body_errors := _resp_body_errors c;
     _resp_body_warnings := _resp_body_warnings c;
     _resp_codes := _resp_codes c; _token := _token c |}.

Definition set_config (cfg : Config) (c : Connection) : Connection :=
  {| config := cfg; verb := verb c; method := method c;
     _request_dict := _request_dict c; request := request c;
     response := response c; _response_error := _response_error c;
     _resp_body_errors := _resp_body_errors c;
     _resp_body_warnings := _resp_body_warnings c;
     _resp_codes := _resp_codes c; _token := _token c |}.

Definition test_token : OAuth2Token.t :=
  OAuth2Token.make "test_token" (Some 7200%Z).

Definition new_token : OAuth2Token.t :=
  OAuth2Token.make "new_token" (Some 10800%Z).

(** A world at time 1000 whose token endpoint answers every request with
    [new_token]. *)
Definition test_world : World :=
  {| now := 1000;
     token_endpoint := fun _ _ => Ok new_token;
     token_requests := [];
     log := [] |}.

(** A world whose token endpoint cannot be reached. *)
Definition offline_world : World :=
  {| now := 1000;
     token_endpoint := fun _ _ => Raise (RequestException "connection refused");
     token_requests := [];
     log := [] |}.

(** The response bodies of the tests: one error, and one warning. *)
Definition test_error : list (string * value) :=
  [ ("errorId", VStr "123"); ("message", VStr "Test error");
    ("category", VStr "ERROR") ].

Definition test_warning : list (string * value) :=
  [ ("errorId", VStr "456"); ("message", VStr "Test warning");
    ("category", VStr "WARNING") ].

Definition response_200 (body : list (string * value)) : Response :=
  {| status_code := 200; reason := "OK"; json := Ok (VDict body) |}.

Definition response_404 : Response :=
  {| status_code := 404; reason := "Not Found";
     json := Raise (JSONDecodeError "Expecting value") |}.

(** A connection that received a 200 response with one error in its body
    while no verb was set. *)
Definition no_verb_connection : Connection :=
  set_response (Some (response_200 [("errors", VList [VDict test_error])]))
    (new_connection test_config).

(** A connection that ran [search], received that response and extracted
    its errors. *)
Definition searched_connection : Connection :=
  conn_after
    (@_get_resp_body_errors python3
       (set_verb (Some "search") no_verb_connection) test_world).

(** The same connection after a second request was sent from it and answered
    with a 404, the attributes of the first answer not reset. *)
Definition stale_connection : Connection :=
  set_response (Some response_404) searched_connection.

(** A body with one error and two warnings, the second warning with the code
    of the error. *)
Definition test_body : list (string * value) :=
  [ ("errors", VList [VDict test_error]);
    ("warnings", VList [VDict test_warning; VDict test_error]) ].

Definition answered_connection : Connection :=
  set_verb (Some "search")
    (set_response (Some (response_200 test_body))
       (new_connection test_config)).

(** The fixture of the tests: a token is cached. *)
Definition cached_connection : Connection :=
  set_token (Some test_token) (new_connection test_config).

(** A configuration without credentials. *)
Definition no_credentials_config : Config :=
  {| domain := "api.ebay.com";
     uri := "/buy/browse/v1";
     https := true;
     warnings := true;
     errors := true;
     siteid := "EBAY_US";
     appid := VNone;
     certid := VNone |}.

(** A connection about to build the URL of [getItem] for item 123. *)
Definition getItem_connection : Connection :=
  set_request_dict (VDict [("item_id", VInt 123)])
    (new_connection test_config).

(** A world whose token endpoint fails with an exception that is neither an
    [OAuth2Error] nor a [RequestException], as the mock of the tests does. *)
Definition failing_world : World :=
  {| now := 1000;
     token_endpoint := fun _ _ => Raise (OtherException "OAuth error");
     token_requests := [];
     log := [] |}.

(** A connection that ran [search] and received a 200 response with one
    warning and no error in its body. *)
Definition warned_connection : Connection :=
  set_verb (Some "search")
    (set_response
       (Some (response_200 [("warnings", VList [VDict test_warning])]))
       (new_connection test_config)).

(** A connection that ran [search] and received the given response. *)
Definition search_answered (r : Response) : Connection :=
  set_verb (Some "search")
    (set_response (Some r) (new_connection test_config)).

(** The five headers of a request that carries the access token [token] to
    the marketplace [site]. *)
Definition headers_of `{Imports} (token site : string)
    : list (string * string) :=
  [ ("Content-Type", "application/json");
    ("Accept", "application/json");
    ("Authorization", "Bearer " ++ token);
    ("User-Agent", UserAgent);
    ("X-EBAY-C-MARKETPLACE-ID", site) ].

(** The arguments [build_request] hands to [Request] for the verb and the
    parameters, once it has the URL and the access token. *)
Definition built_request `{Imports} (verb : string)
    (data verb_attrs files : value) (u token site : string) : Request :=
  {| req_method :=
       if str_in verb ["searchByImage"; "checkCompatibility"]
       then "POST" else "GET";
     req_url := u;
     req_params := build_request_query verb data;
     req_data :=
       smart_encode_request_data (build_request_data verb data verb_attrs);
     req_headers := headers_of token site;
     req_files := files |}.

(** The record [log.warning] or [log.error] is handed for the messages
    [msgs] of the verb [the_verb], when the flag of the configuration is on
    and there is a message. *)
Definition log_record (flag : bool) (l : level) (the_verb : string)
    (msgs : list string) : list (level * string) :=
  if flag && match msgs with [] => false | _ :: _ => true end
  then [(l, the_verb ++ ": " ++ join LF msgs ++ LF ++ LF)]
  else [].

(** A 200 response whose body is not JSON. *)
Definition response_200_not_json : Response :=
  {| status_code := 200; reason := "OK";
     json := Raise (JSONDecodeError "Expecting value") |}.

(** * Properties *)

(** ** Strings, dicts and verbs *)

Arguments str_in : simpl never.

Lemma append_empty_r (s : string) : s ++ EmptyString = s.
Proof.
  induction s as [|ch s IH]; simpl; [reflexivity | now rewrite IH].
Qed.

Lemma post_verb_iff (verb : string) :
  str_in verb ["searchByImage"; "checkCompatibility"] = true
  <-> verb = "searchByImage" \/ verb = "checkCompatibility".
Proof.
  unfold str_in; simpl.
  rewrite orb_false_r, orb_true_iff, !String.eqb_eq. tauto.
Qed.

Lemma item_verb_iff (verb : string) :
  str_in verb ["getItem"; "checkCompatibility"] = true
  <-> verb = "getItem" \/ verb = "checkCompatibility".
Proof.
  unfold str_in; simpl.
  rewrite orb_false_r, orb_true_iff, !String.eqb_eq. tauto.
Qed.

Lemma dict_get_In (key : string) (d : list (string * value)) (v : value) :
  dict_get key d = Some v -> In (key, v) d.
Proof.
  induction d as [|[k x] d IH]; simpl; [discriminate|].
  destruct (String.eqb key k) eqn:E.
  - apply String.eqb_eq in E. intros [= ->]. left. now subst.
  - intros Hget. right. now apply IH.
Qed.

Lemma dict_get_None_iff (key : string) (d : list (string * value)) :
  dict_get key d = None <-> ~ In key (map fst d).
Proof.
  induction d as [|[k x] d IH]; simpl; [tauto|].
  destruct (String.eqb key k) eqn:E.
  - apply String.eqb_eq in E. subst. split; [discriminate | tauto].
  - apply String.eqb_neq in E. rewrite IH. split.
    + intros Hn [Hk | Hin]; [now apply E | now apply Hn].
    + tauto.
Qed.

Lemma dict_get_NoDup (key : string) (d : list (string * value)) (v : value) :
  NoDup (map fst d) -> In (key, v) d -> dict_get key d = Some v.
Proof.
  induction d as [|[k x] d IH]; simpl; [tauto|].
  intros Hnd Hin. inversion Hnd as [|? ? Hk Hd]; subst.
  destruct Hin as [[= -> ->] | Hin].
  - now rewrite String.eqb_refl.
  - destruct (String.eqb key k) eqn:E.
    + apply String.eqb_eq in E. subst. exfalso. apply Hk.
      apply in_map_iff. now exists (k, v).
    + now apply IH.
Qed.

Lemma dict_mem_false_iff (key : string) (d : list (string * value)) :
  dict_mem key d = false <-> dict_get key d = None.
Proof.
  unfold dict_mem. destruct (dict_get key d); split; congruence.
Qed.

Lemma is_None_false_iff (v : value) : is_None v = false <-> v <> VNone.
Proof.
  destruct v; simpl; split; congruence.
Qed.

(** Running a method: the combinators unfolded. *)
Ltac run :=
  unfold bind, ret, raise, lift, self, world, update, effect,
    returned, conn_after, world_after; simpl.

Section RequestBuilder.
Context `{Imports}.

(** *** The token accessor does not touch the request attributes *)

Lemma access_token_method (c : Connection) (w : World) :
  method (conn_after (access_token c w)) = method c.
Proof.
  unfold access_token. run.
  destruct (token_absent_or_expired c w).
  - destruct (negb (truthy (appid (config c)))
              || negb (truthy (certid (config c)))); simpl;
      [reflexivity|].
    destruct (token_endpoint w (token_requests w) (token_request c))
      as [token | []]; reflexivity.
  - simpl. destruct (_token c); reflexivity.
Qed.

Lemma build_request_sets_method
    (verb : string) (data verb_attrs files : value)
    (c : Connection) (w : World) :
  method (conn_after (build_request verb data verb_attrs files c w))
  = if str_in verb ["searchByImage"; "checkCompatibility"]
    then "POST" else "GET".
Proof.
  unfold build_request, build_request_headers.
  set (post := str_in verb ["searchByImage"; "checkCompatibility"]).
  set (m := if post then "POST" else "GET").
  set (c3 := set_method m (set_request_dict data (set_verb (Some verb) c))).
  assert (Hm : method c3 = m) by reflexivity.
  pose proof (access_token_method c3 w) as Htok.
  unfold conn_after in Htok.
  unfold bind at 1 2 3. unfold update at 1 2.
  replace ((if post then update (set_method "POST")
            else update (set_method "GET"))
             (set_request_dict data (set_verb (Some verb) c)) w)
    with (Ok tt, c3, w)
    by (unfold c3, m; destruct post; reflexivity).
  run.
  destruct (build_request_url c3 verb) as [u | e]; simpl; [|exact Hm].
  destruct (access_token c3 w) as [[[token | e] c4] w4]; simpl in *;
    [|congruence].
  match goal with
  | |- context [prepare_raises ?r] => destruct (prepare_raises r)
  end; simpl; congruence.
Qed.

(** C2.  Whatever the verb, the parameters and the state of the connection,
    and whether or not the rest of [build_request] succeeds, the method it
    leaves in [self.method] is POST exactly when the verb is
    [searchByImage] or [checkCompatibility], and GET for every other verb;
    a request that gets built carries that method. *)
Theorem build_request_method :
  forall (verb : string) (data verb_attrs files : value)
         (c : Connection) (w : World),
    let after := build_request verb data verb_attrs files c w in
    (method (conn_after after) = "POST"
     <-> verb = "searchByImage" \/ verb = "checkCompatibility")
    /\ (method (conn_after after) = "GET"
        <-> ~ (verb = "searchByImage" \/ verb = "checkCompatibility"))
    /\ (returned after = Ok tt ->
        exists r, request (conn_after after) = Some r
                  /\ req_method r = method (conn_after after)).
Proof.
  intros verb data verb_attrs files c w after.
  pose proof (build_request_sets_method verb data verb_attrs files c w)
    as Hm.
  fold after in Hm.
  pose proof (post_verb_iff verb) as Hpost.
  destruct (str_in verb ["searchByImage"; "checkCompatibility"]) eqn:E.
  - split; [|split].
    + rewrite Hm. split; [intros _; now apply Hpost | reflexivity].
    + rewrite Hm. split; [discriminate|].
      intros Hn. exfalso. apply Hn. now apply Hpost.
    + revert Hm. unfold after, build_request, build_request_headers. run.
      rewrite E. simpl.
      destruct (build_request_url _ verb); simpl; [|discriminate].
      destruct (access_token _ w) as [[[token | e] c4] w4]; simpl;
        [|discriminate].
      match goal with
      | |- context [prepare_raises ?r] => destruct (prepare_raises r)
      end; simpl; [discriminate|].
      intros Hm _. eexists. split; reflexivity.
  - assert (Hn : ~ (verb = "searchByImage" \/ verb = "checkCompatibility"))
      by (intros Hv; apply Hpost in Hv; discriminate).
    split; [|split].
    + rewrite Hm. split; [discriminate | tauto].
    + rewrite Hm. tauto.
    + revert Hm. unfold after, build_request, build_request_headers. run.
      rewrite E. simpl.
      destruct (build_request_url _ verb); simpl; [|discriminate].
      destruct (access_token _ w) as [[[token | e] c4] w4]; simpl;
        [|discriminate].
      match goal with
      | |- context [prepare_raises ?r] => destruct (prepare_raises r)
      end; simpl; [discriminate|].
      intros Hm _. eexists. split; reflexivity.
Qed.

(** *** The URL *)

Lemma format_getItem (item_id : string) :
  format_item_id "/item/{item_id}" item_id = "/item/" ++ item_id.
Proof.
  unfold format_item_id. simpl. now rewrite append_empty_r.
Qed.

Lemma format_checkCompatibility (item_id : string) :
  format_item_id "/item/{item_id}/check_compatibility" item_id
  = "/item/" ++ item_id ++ "/check_compatibility".
Proof.
  unfold format_item_id. reflexivity.
Qed.

Lemma endpoint_of_item_verb (verb item_id : string) :
  verb = "getItem" \/ verb = "checkCompatibility" ->
  format_item_id (table_get verb endpoint_map ("/" ++ verb)) item_id
  = "/item/" ++ item_id
    ++ (if String.eqb verb "getItem"
        then EmptyString else "/check_compatibility").
Proof.
  intros [-> | ->]; simpl table_get; simpl String.eqb; cbv iota.
  - rewrite format_getItem. now rewrite append_empty_r.
  - apply format_checkCompatibility.
Qed.

(** For the two verbs with an item in their path, and a request dict that
    is absent: the call raises. *)
Lemma build_request_url_absent (c : Connection) (verb : string) :
  verb = "getItem" \/ verb = "checkCompatibility" ->
  _request_dict c = VNone ->
  build_request_url c verb
  = Raise (ValueError
             "item_id is required for getItem and checkCompatibility").
Proof.
  intros Hv Hrd. unfold build_request_url.
  rewrite (proj2 (item_verb_iff verb) Hv), Hrd. reflexivity.
Qed.

(** The same, for a request dict that is a mapping. *)
Lemma build_request_url_mapping
    (c : Connection) (verb : string) (d : list (string * value)) :
  verb = "getItem" \/ verb = "checkCompatibility" ->
  _request_dict c = VDict d ->
  build_request_url c verb
  = match dict_get "item_id" d with
    | None =>
        Raise (ValueError
                 "item_id is required for getItem and checkCompatibility")
    | Some item_id =>
        Ok (base_url c ++ "/item/" ++ py_str item_id
            ++ (if String.eqb verb "getItem"
                then EmptyString else "/check_compatibility"))
    end.
Proof.
  intros Hv Hrd. unfold build_request_url.
  rewrite (proj2 (item_verb_iff verb) Hv), Hrd.
  destruct d as [|kv d']; [reflexivity|].
  remember (kv :: d') as d eqn:Hd.
  assert (Ht : truthy (VDict d) = true) by (subst d; reflexivity).
  rewrite Ht. unfold py_contains, py_getitem, dict_mem, rbind.
  destruct (dict_get "item_id" d) as [item_id|]; cbn [negb];
    [|reflexivity].
  now rewrite (endpoint_of_item_verb verb (py_str item_id) Hv).
Qed.

(** Whatever object the request dict is, the [ValueError] is raised exactly
    when the object is false or is a container without [item_id]; an object
    that is no container, or one that cannot be indexed by a string, ends in
    a [TypeError] instead. *)
Lemma build_request_url_value_error (c : Connection) (verb : string) :
  verb = "getItem" \/ verb = "checkCompatibility" ->
  (exists msg, build_request_url c verb = Raise (ValueError msg))
  <-> (truthy (_request_dict c) = false
       \/ py_contains "item_id" (_request_dict c) = Ok false).
Proof.
  intros Hv. unfold build_request_url.
  rewrite (proj2 (item_verb_iff verb) Hv).
  destruct (truthy (_request_dict c)) eqn:Ht; cbn [negb rbind].
  - destruct (_request_dict c) as [| b | n | s | l | d];
      cbn [py_contains py_getitem rbind];
      try (split; [intros [msg E]; discriminate
                  | intros [E | E]; discriminate]).
    + destruct (is_substring "item_id" s); cbn [negb]; split;
        try (intros [msg E]; discriminate);
        try (intros [E | E]; discriminate); eauto.
    + destruct (list_mem (VStr "item_id") l); cbn [negb]; split;
        try (intros [msg E]; discriminate);
        try (intros [E | E]; discriminate); eauto.
    + unfold dict_mem. destruct (dict_get "item_id" d); cbn [negb]; split;
        try (intros [msg E]; discriminate);
        try (intros [E | E]; discriminate); eauto.
  - split; eauto.
Qed.

(** C3.  For [getItem] and [checkCompatibility], with a request dict that
    is absent ([None]) or a mapping, [build_request_url] raises a
    [ValueError] if and only if the dict is absent or has no key
    [item_id]; otherwise it returns the base URL followed by the path with
    the text of the item id in it, so that [getItem] with [item_id=123]
    gives a URL that ends in [/item/123]. *)
Theorem build_request_url_item_id :
  forall (c : Connection) (verb : string),
    verb = "getItem" \/ verb = "checkCompatibility" ->
    (_request_dict c = VNone \/ exists d, _request_dict c = VDict d) ->
    ((exists msg, build_request_url c verb = Raise (ValueError msg))
     <-> (_request_dict c = VNone
          \/ exists d, _request_dict c = VDict d
                       /\ dict_mem "item_id" d = false))
    /\ (forall d item_id,
           _request_dict c = VDict d ->
           dict_get "item_id" d = Some item_id ->
           build_request_url c verb
           = Ok (base_url c ++ "/item/" ++ py_str item_id
                 ++ (if String.eqb verb "getItem"
                     then EmptyString else "/check_compatibility")))
    /\ (verb = "getItem" ->
        _request_dict c = VDict [("item_id", VInt 123)] ->
        build_request_url c verb = Ok (base_url c ++ "/item/123")).
Proof.
  intros c verb Hv Hrd. split; [|split].
  - split.
    + intros [msg Hraise]. destruct Hrd as [Hrd | [d Hrd]]; [now left|].
      right. exists d. split; [exact Hrd|].
      rewrite (build_request_url_mapping c verb d Hv Hrd) in Hraise.
      unfold dict_mem. destruct (dict_get "item_id" d);
        [discriminate | reflexivity].
    + intros [Hnone | [d [Hd Hmem]]].
      * eexists. now apply build_request_url_absent.
      * eexists. rewrite (build_request_url_mapping c verb d Hv Hd).
        apply dict_mem_false_iff in Hmem. rewrite Hmem. reflexivity.
  - intros d item_id Hd Hget.
    rewrite (build_request_url_mapping c verb d Hv Hd), Hget. reflexivity.
  - intros -> Hd.
    rewrite (build_request_url_mapping c "getItem" _ Hv Hd). reflexivity.
Qed.

(** *** The query and the body *)

(** The body: the JSON text of the mapping for the two POST verbs, empty
    for the others. *)
Lemma build_request_data_dict
    (verb : string) (d : list (string * value)) (verb_attrs : value) :
  build_request_data verb (VDict d) verb_attrs
  = if str_in verb ["searchByImage"; "checkCompatibility"]
    then json_dumps (VDict d) else EmptyString.
Proof.
  unfold build_request_data.
  now destruct (str_in verb ["searchByImage"; "checkCompatibility"]).
Qed.

(** The query of a verb that is not a POST verb: of the two verbs the
    comprehension tests, only [getItem] can be the one at hand. *)
Lemma build_request_query_get
    (verb : string) (d : list (string * value)) :
  ~ (verb = "searchByImage" \/ verb = "checkCompatibility") ->
  build_request_query verb (VDict d)
  = Some (map (fun kv => (fst kv, smart_encode (snd kv)))
            (filter
               (fun kv =>
                  negb (is_None (snd kv))
                  && negb (String.eqb verb "getItem"
                           && String.eqb (fst kv) "item_id"))
               d)).
Proof.
  intros Hget. unfold build_request_query.
  destruct (str_in verb ["searchByImage"; "checkCompatibility"]) eqn:E;
    [exfalso; now apply Hget, post_verb_iff|].
  simpl. do 2 f_equal. apply filter_ext. intros [k v]. simpl.
  assert (Hitem : str_in verb ["getItem"; "checkCompatibility"]
                  = String.eqb verb "getItem").
  { unfold str_in. simpl. rewrite orb_false_r.
    destruct (String.eqb verb "checkCompatibility") eqn:E2;
      [|apply orb_false_r].
    apply String.eqb_eq in E2. exfalso. apply Hget. now right. }
  rewrite Hitem.
  destruct (String.eqb verb "getItem"), (String.eqb k "item_id"),
    (is_None v); reflexivity.
Qed.

Lemma build_request_query_post
    (verb : string) (data : value) :
  verb = "searchByImage" \/ verb = "checkCompatibility" ->
  build_request_query verb data = None.
Proof.
  intros Hpost. unfold build_request_query.
  now rewrite (proj2 (post_verb_iff verb) Hpost).
Qed.

(** The entries of the query of a GET verb. *)
Lemma build_request_query_In
    (verb : string) (d : list (string * value)) :
  ~ (verb = "searchByImage" \/ verb = "checkCompatibility") ->
  exists q,
    build_request_query verb (VDict d) = Some q
    /\ forall k v',
        In (k, v') q
        <-> exists v, In (k, v) d /\ v <> VNone
                      /\ ~ (verb = "getItem" /\ k = "item_id")
                      /\ v' = smart_encode v.
Proof.
  intros Hget. eexists. split; [now apply build_request_query_get|].
  intros k v'. rewrite in_map_iff. split.
  - intros [[k0 v] [[= <- <-] Hin]]. apply filter_In in Hin.
    destruct Hin as [Hin Hkeep]. simpl in Hkeep.
    apply andb_true_iff in Hkeep. destruct Hkeep as [Hv Hk].
    exists v. repeat split; auto.
    + apply is_None_false_iff. now apply negb_true_iff.
    + intros [-> ->]. simpl in Hk. discriminate.
  - intros [v [Hin [Hv [Hk ->]]]]. exists (k, v). split; [reflexivity|].
    apply filter_In. split; [exact Hin|]. simpl.
    apply andb_true_iff. split.
    + apply negb_true_iff. now apply is_None_false_iff.
    + apply negb_true_iff. apply andb_false_iff.
      destruct (String.eqb verb "getItem") eqn:E1; [|now left].
      destruct (String.eqb k "item_id") eqn:E2; [|now right].
      exfalso. apply Hk. split; now apply String.eqb_eq.
Qed.

(** C4.  For a request dict [d], the query and the body exclude each
    other.  For [searchByImage] and [checkCompatibility] the body is the
    JSON text of the whole mapping and the query is [None].  For every
    other verb the body is the empty string and the query is a mapping of
    encoded parameters: each of its entries is a parameter of [d], encoded,
    each parameter of [d] is in it unless its value is [None] or it is the
    [item_id] of [getItem], and when there are no such parameters it is
    [d] with every value encoded. *)
Theorem query_and_body_exclusive :
  forall (verb : string) (d : list (string * value)) (verb_attrs : value),
    (verb = "searchByImage" \/ verb = "checkCompatibility" ->
     build_request_data verb (VDict d) verb_attrs = json_dumps (VDict d)
     /\ build_request_query verb (VDict d) = None)
    /\ (~ (verb = "searchByImage" \/ verb = "checkCompatibility") ->
        build_request_data verb (VDict d) verb_attrs = EmptyString
        /\ exists q,
            build_request_query verb (VDict d) = Some q
            /\ (forall k v',
                   In (k, v') q ->
                   exists v, In (k, v) d /\ v' = smart_encode v)
            /\ (forall k v,
                   In (k, v) d -> v <> VNone ->
                   ~ (verb = "getItem" /\ k = "item_id") ->
                   In (k, smart_encode v) q)
            /\ (verb <> "getItem" ->
                (forall k, ~ In (k, VNone) d) ->
                q = map (fun kv => (fst kv, smart_encode (snd kv))) d)).
Proof.
  intros verb d verb_attrs. split.
  - intros Hpost. split.
    + rewrite build_request_data_dict.
      now rewrite (proj2 (post_verb_iff verb) Hpost).
    + now apply build_request_query_post.
  - intros Hget. split.
    + rewrite build_request_data_dict.
      destruct (str_in verb ["searchByImage"; "checkCompatibility"]) eqn:E;
        [exfalso; now apply Hget, post_verb_iff | reflexivity].
    + destruct (build_request_query_In verb d Hget) as [q [Hq HIn]].
      exists q. split; [exact Hq|]. split; [|split].
      * intros k v' Hin. apply HIn in Hin.
        destruct Hin as [v [Hd [_ [_ ->]]]]. now exists v.
      * intros k v Hin Hv Hk. apply HIn. now exists v.
      * intros Hverb Hnone.
        rewrite (build_request_query_get verb d Hget) in Hq.
        injection Hq as <-. f_equal.
        apply String.eqb_neq in Hverb. rewrite Hverb. simpl.
        clear -Hnone. induction d as [|[k v] d IH]; [reflexivity|].
        simpl. destruct v; simpl;
          try (f_equal; apply IH; intros k0 Hin;
               apply (Hnone k0); now right).
        exfalso. apply (Hnone k). now left.
Qed.

(** C5, as the code has it.  For [getItem] the query has no key [item_id]
    and keeps every other key whose value is not [None], with its value
    encoded; from [{item_id: 123, fieldgroups: PRODUCT}] it is the one
    entry [fieldgroups], which is [PRODUCT] itself when the encoding
    leaves that text as it is. *)
Theorem getItem_query_excludes_item_id :
  forall (d : list (string * value)),
    (exists q,
        build_request_query "getItem" (VDict d) = Some q
        /\ dict_mem "item_id" q = false
        /\ (forall k v,
               k <> "item_id" -> v <> VNone -> In (k, v) d ->
               In (k, smart_encode v) q))
    /\ build_request_query "getItem"
         (VDict [("item_id", VInt 123); ("fieldgroups", VStr "PRODUCT")])
       = Some [("fieldgroups", smart_encode (VStr "PRODUCT"))]
    /\ (smart_encode (VStr "PRODUCT") = VStr "PRODUCT" ->
        build_request_query "getItem"
          (VDict [("item_id", VInt 123); ("fieldgroups", VStr "PRODUCT")])
        = Some [("fieldgroups", VStr "PRODUCT")]).
Proof.
  intros d.
  assert (Hget : ~ ("getItem" = "searchByImage"
                    \/ "getItem" = "checkCompatibility"))
    by (intros [E | E]; discriminate).
  split; [|split].
  - destruct (build_request_query_In "getItem" d Hget) as [q [Hq HIn]].
    exists q. split; [exact Hq|]. split.
    + apply dict_mem_false_iff, dict_get_None_iff.
      intros Hin. apply in_map_iff in Hin.
      destruct Hin as [[k v'] [Hk Hin]]. simpl in Hk. subst k.
      apply HIn in Hin. destruct Hin as [v [_ [_ [Hno _]]]].
      apply Hno. now split.
    + intros k v Hk Hv Hin. apply HIn. exists v.
      repeat split; auto. intros [_ Hk']. now apply Hk.
  - reflexivity.
  - intros Henc. rewrite <- Henc at 2. reflexivity.
Qed.

(** C10.  For every verb that is not a POST verb and every request dict,
    the query has exactly the keys of the dict whose value is not [None],
    less [item_id] for [getItem], in the order of the dict and each with
    its value encoded; a parameter passed as [None] is not in the query. *)
Theorem build_request_query_drops_None :
  forall (verb : string) (d : list (string * value)),
    ~ (verb = "searchByImage" \/ verb = "checkCompatibility") ->
    exists q,
      build_request_query verb (VDict d) = Some q
      /\ map fst q
         = map fst
             (filter
                (fun kv =>
                   negb (is_None (snd kv))
                   && negb (String.eqb verb "getItem"
                            && String.eqb (fst kv) "item_id"))
                d)
      /\ (forall k v',
             In (k, v') q
             <-> exists v, In (k, v) d /\ v <> VNone
                           /\ ~ (verb = "getItem" /\ k = "item_id")
                           /\ v' = smart_encode v)
      /\ (forall k,
             NoDup (map fst d) -> In (k, VNone) d ->
             ~ In k (map fst q)).
Proof.
  intros verb d Hget.
  destruct (build_request_query_In verb d Hget) as [q [Hq HIn]].
  exists q. split; [exact Hq|]. split; [|split].
  - rewrite (build_request_query_get verb d Hget) in Hq.
    injection Hq as <-. rewrite map_map. reflexivity.
  - exact HIn.
  - intros k Hnd Hnone Hin. apply in_map_iff in Hin.
    destruct Hin as [[k0 v'] [Hk Hin]]. simpl in Hk. subst k0.
    apply HIn in Hin. destruct Hin as [v [Hd [Hv _]]].
    apply Hv.
    pose proof (dict_get_NoDup k d v Hnd Hd) as E1.
    pose proof (dict_get_NoDup k d VNone Hnd Hnone) as E2.
    congruence.
Qed.
End RequestBuilder.

(** ** The token cache *)

Section TokenCache.
Context `{Imports}.

Lemma token_absent_or_expired_iff (c : Connection) (w : World) :
  token_absent_or_expired c w = true
  <-> (_token c = None
       \/ exists token,
            _token c = Some token /\ is_expired token (now w) = true).
Proof.
  unfold token_absent_or_expired. destruct (_token c) as [token|].
  - split.
    + intros E. right. now exists token.
    + intros [E | [token' [[= <-] E]]]; [discriminate | exact E].
  - split; [now left | reflexivity].
Qed.

(** A token that is cached and not expired is returned as it is. *)
Lemma access_token_cached
    (c : Connection) (w : World) (token : OAuth2Token.t) :
  _token c = Some token ->
  is_expired token (now w) = false ->
  access_token c w = (Ok (OAuth2Token.access_token token), c, w).
Proof.
  intros Htok Hfresh. unfold access_token, token_absent_or_expired. run.
  rewrite Htok, Hfresh. simpl. now rewrite Htok.
Qed.

(** With credentials and an endpoint that answers, a refresh stores the
    answer and returns its access token. *)
Lemma access_token_refreshed
    (c : Connection) (w : World) (token : OAuth2Token.t) :
  token_absent_or_expired c w = true ->
  truthy (appid (config c)) = true ->
  truthy (certid (config c)) = true ->
  token_endpoint w (token_requests w) (token_request c) = Ok token ->
  access_token c w
  = (Ok (OAuth2Token.access_token token), set_token (Some token) c,
     add_token_request (token_request c) w).
Proof.
  intros Hneed Hid Hsecret Hanswer. unfold access_token. run.
  rewrite Hneed, Hid, Hsecret. simpl. now rewrite Hanswer.
Qed.

(** Without a client id or a client secret a refresh raises at once. *)
Lemma access_token_no_credentials (c : Connection) (w : World) :
  token_absent_or_expired c w = true ->
  truthy (appid (config c)) = false \/ truthy (certid (config c)) = false ->
  access_token c w
  = (Raise (ValueError
       "appid (client id) and certid (client secret) are required for OAuth"),
     c, w).
Proof.
  intros Hneed Hmissing. unfold access_token. run. rewrite Hneed.
  assert (E : negb (truthy (appid (config c)))
              || negb (truthy (certid (config c))) = true).
  { apply orb_true_iff. destruct Hmissing as [E | E]; rewrite E; auto. }
  now rewrite E.
Qed.

(** A token request that fails with one of the two exceptions the accessor
    catches raises a [ConnectionError] that quotes it. *)
Lemma access_token_fetch_failed
    (c : Connection) (w : World) (e : exn) :
  token_absent_or_expired c w = true ->
  truthy (appid (config c)) = true ->
  truthy (certid (config c)) = true ->
  token_endpoint w (token_requests w) (token_request c) = Raise e ->
  (exists msg, e = OAuth2Error msg \/ e = RequestException msg) ->
  access_token c w
  = (Raise (ConnectionError ("Failed to get access token: " ++ exn_str e)),
     c, add_token_request (token_request c) w).
Proof.
  intros Hneed Hid Hsecret Hanswer [msg [-> | ->]];
    unfold access_token; run;
    rewrite Hneed, Hid, Hsecret; simpl; now rewrite Hanswer.
Qed.

(** The accessor asks the endpoint only when it has to refresh. *)
Lemma access_token_requests (c : Connection) (w : World) :
  token_absent_or_expired c w = false ->
  world_after (access_token c w) = w
  /\ conn_after (access_token c w) = c.
Proof.
  intros Hfresh. unfold access_token. run. rewrite Hfresh. simpl.
  destruct (_token c); split; reflexivity.
Qed.

(** Two accesses in a row on a connection without a token, the fetched token
    not expired: the second access makes no request. *)
Lemma access_token_twice
    (c : Connection) (w : World) (token : OAuth2Token.t) :
  _token c = None ->
  truthy (appid (config c)) = true ->
  truthy (certid (config c)) = true ->
  token_endpoint w (token_requests w) (token_request c) = Ok token ->
  is_expired token (now w) = false ->
  (access_token ;; access_token)%method c w
  = (Ok (OAuth2Token.access_token token), set_token (Some token) c,
     add_token_request (token_request c) w).
Proof.
  intros Hnone Hid Hsecret Hanswer Hfresh. unfold bind at 1.
  rewrite (access_token_refreshed c w token); auto.
  - now apply access_token_cached.
  - unfold token_absent_or_expired. now rewrite Hnone.
Qed.

(** C1.  The token accessor is a lazy cache.  A token that is cached and
    not expired is returned (its [access_token] field) with the connection,
    and so the cached token, and the world, and so the list of token
    requests, left as they were.  A token request is made, or the cached
    token changed, only when no token is cached or the cached one is
    expired; then, with credentials and an endpoint that answers, one
    client-credentials request is made with the application id as client
    id and the certificate id as client secret, and the answer becomes the
    cached token and gives the value returned. *)
Theorem access_token_lazy_cache :
  forall (c : Connection) (w : World),
    (forall token,
        _token c = Some token ->
        is_expired token (now w) = false ->
        access_token c w = (Ok (OAuth2Token.access_token token), c, w))
    /\ (token_requests (world_after (access_token c w)) <> token_requests w
        \/ _token (conn_after (access_token c w)) <> _token c ->
        _token c = None
        \/ exists token,
             _token c = Some token /\ is_expired token (now w) = true)
    /\ (_token c = None
        \/ (exists token,
               _token c = Some token /\ is_expired token (now w) = true) ->
        truthy (appid (config c)) = true ->
        truthy (certid (config c)) = true ->
        forall token',
          token_endpoint w (token_requests w) (token_request c)
          = Ok token' ->
          access_token c w
          = (Ok (OAuth2Token.access_token token'),
             set_token (Some token') c,
             add_token_request (token_request c) w)
          /\ token_requests (world_after (access_token c w))
             = (token_requests w ++ [token_request c])%list
          /\ _token (conn_after (access_token c w)) = Some token'
          /\ grant_type (token_request c) = "client_credentials"
          /\ client_id (token_request c) = appid (config c)
          /\ client_secret (token_request c) = certid (config c)).
Proof.
  intros c w. split; [|split].
  - intros token. apply access_token_cached.
  - intros Hchanged. apply token_absent_or_expired_iff.
    destruct (token_absent_or_expired c w) eqn:E; [reflexivity|].
    destruct (access_token_requests c w E) as [Hw Hc].
    rewrite Hw, Hc in Hchanged. destruct Hchanged as [Hn | Hn];
      now elim Hn.
  - intros Hneed Hid Hsecret token' Hanswer.
    apply token_absent_or_expired_iff in Hneed.
    rewrite (access_token_refreshed c w token' Hneed Hid Hsecret Hanswer).
    repeat split.
Qed.

(** The two failures the accessor handles itself.  When a refresh is needed
    (no token cached, or the cached one expired): if the client id
    ([appid]) or the client secret ([certid]) is missing, the accessor
    raises a [ValueError] and the world is as it was, no token request
    made; with both present, a token request that fails with an
    [OAuth2Error] or a [RequestException] makes the accessor raise a
    [ConnectionError] whose message quotes the failure. *)
Theorem access_token_failures :
  forall (c : Connection) (w : World),
    (_token c = None
     \/ exists token,
          _token c = Some token /\ is_expired token (now w) = true) ->
    (truthy (appid (config c)) = false
     \/ truthy (certid (config c)) = false ->
     access_token c w
     = (Raise (ValueError
          "appid (client id) and certid (client secret) are required for OAuth"),
        c, w)
     /\ token_requests (world_after (access_token c w)) = token_requests w)
    /\ (truthy (appid (config c)) = true ->
        truthy (certid (config c)) = true ->
        forall e,
          token_endpoint w (token_requests w) (token_request c) = Raise e ->
          (exists msg, e = OAuth2Error msg \/ e = RequestException msg) ->
          access_token c w
          = (Raise (ConnectionError
                      ("Failed to get access token: " ++ exn_str e)),
             c, add_token_request (token_request c) w)).
Proof.
  intros c w Hneed. apply token_absent_or_expired_iff in Hneed. split.
  - intros Hmissing.
    rewrite (access_token_no_credentials c w Hneed Hmissing).
    split; reflexivity.
  - intros Hid Hsecret e Hanswer Hkind.
    now apply access_token_fetch_failed.
Qed.
End TokenCache.

(** C6.  Where the accessor does not do what is claimed.  A token request
    can fail with an exception that is neither an [OAuth2Error] nor a
    [RequestException]: the [Exception] the mock of
    [test_access_token_property_failure] raises, and the [OAuthError] with
    which the OAuth2 session reports an error answer of the endpoint.  On a
    connection with credentials and no token the accessor then makes the
    request and raises that exception as it is; it raises no
    [ConnectionError], which is what the test asserts and the claim says
    of a failure of the OAuth protocol. *)
Theorem access_token_failure_unwrapped :
  @access_token python3 (new_connection test_config) failing_world
  = (Raise (OtherException "OAuth error"), new_connection test_config,
     add_token_request (token_request (new_connection test_config))
       failing_world)
  /\ truthy (appid (config (new_connection test_config))) = true
  /\ truthy (certid (config (new_connection test_config))) = true
  /\ forall msg,
      returned (@access_token python3 (new_connection test_config)
                  failing_world)
      <> Raise (ConnectionError msg).
Proof.
  split; [reflexivity|]. split; [reflexivity|]. split; [reflexivity|].
  intros msg. vm_compute. discriminate.
Qed.

(** ** Equality of values and the list of codes *)

Lemma wf_value_list (l : list value) :
  wf_value (VList l) <-> Forall wf_value l.
Proof.
  induction l as [|x l IH]; simpl.
  - split; [constructor | trivial].
  - rewrite Forall_cons_iff. simpl in IH. tauto.
Qed.

Lemma wf_value_dict (d : list (string * value)) :
  wf_value (VDict d)
  <-> NoDup (map fst d) /\ Forall (fun kv => wf_value (snd kv)) d.
Proof.
  simpl. apply and_iff_compat_l.
  induction d as [|kv d IH]; simpl.
  - split; [constructor | trivial].
  - rewrite Forall_cons_iff. tauto.
Qed.

Lemma wf_dict_get_default
    (key : string) (d : list (string * value)) (default : value) :
  wf_value (VDict d) -> wf_value default ->
  wf_value (dict_get_default key d default).
Proof.
  intros Hd Hdefault. unfold dict_get_default.
  destruct (dict_get key d) as [v|] eqn:E; [|exact Hdefault].
  apply wf_value_dict in Hd. destruct Hd as [_ Hall].
  rewrite Forall_forall in Hall.
  apply (Hall (key, v)). now apply dict_get_In.
Qed.

(** A well-formed value is equal to itself. *)
Lemma py_eq_refl (v : value) : wf_value v -> py_eq v v = true.
Proof.
  induction v as [| b | n | s | l IH | d IH] using value_nested_ind;
    intros Hwf.
  - reflexivity.
  - simpl. now destruct b.
  - simpl. apply Z.eqb_refl.
  - simpl. apply String.eqb_refl.
  - apply wf_value_list in Hwf. simpl.
    induction l as [|x l IHl]; [reflexivity|].
    inversion IH as [|? ? Hx Hl]; subst.
    inversion Hwf as [|? ? Hwx Hwl]; subst.
    simpl. rewrite (Hx Hwx). simpl. now apply IHl.
  - apply wf_value_dict in Hwf. destruct Hwf as [Hnd Hall]. simpl.
    rewrite Nat.eqb_refl. simpl.
    assert (Hsub : forall xs,
               (forall kv, In kv xs -> In kv d) ->
               dict_sub py_eq d xs = true).
    { induction xs as [|[k v] xs IHxs]; intros Hin; [reflexivity|].
      simpl.
      rewrite (dict_get_NoDup k d v Hnd (Hin (k, v) (or_introl eq_refl))).
      rewrite Forall_forall in IH, Hall.
      pose proof (IH (k, v) (Hin _ (or_introl eq_refl))
                    (Hall (k, v) (Hin _ (or_introl eq_refl)))) as Hv.
      simpl in Hv. rewrite Hv.
      simpl. apply IHxs. intros kv Hkv. apply Hin. now right. }
    apply Hsub. auto.
Qed.

Lemma list_mem_false (x : value) (l : list value) :
  list_mem x l = false -> Forall (fun a => py_eq x a = false) l.
Proof.
  unfold list_mem. induction l as [|a l IH]; simpl; [constructor|].
  intros E. apply orb_false_iff in E. destruct E as [Ea El].
  constructor; auto.
Qed.

Lemma list_mem_app (x : value) (l1 l2 : list value) :
  list_mem x (l1 ++ l2) = list_mem x l1 || list_mem x l2.
Proof.
  unfold list_mem. apply existsb_app.
Qed.

Lemma ForallOrdPairs_snoc {A} (R : A -> A -> Prop) (l : list A) (x : A) :
  ForallOrdPairs R l -> Forall (fun a => R a x) l ->
  ForallOrdPairs R (l ++ [x]).
Proof.
  induction 1 as [|a l Ha Hl IH]; intros Hx; simpl.
  - constructor; constructor.
  - inversion Hx as [|? ? Hax Hlx]; subst. constructor.
    + apply Forall_app. split; [exact Ha | now constructor].
    + now apply IH.
Qed.

(** The codes are pairwise different for [==]: none equals one before it. *)
Lemma add_code_distinct (code : value) (resp_codes : list value) :
  ForallOrdPairs (fun a b => py_eq b a = false) resp_codes ->
  ForallOrdPairs (fun a b => py_eq b a = false) (add_code code resp_codes).
Proof.
  intros Hd. unfold add_code.
  destruct (list_mem code resp_codes) eqn:E; simpl; [exact Hd|].
  apply ForallOrdPairs_snoc; [exact Hd|]. now apply list_mem_false.
Qed.

Lemma add_codes_distinct (codes resp_codes : list value) :
  ForallOrdPairs (fun a b => py_eq b a = false) resp_codes ->
  ForallOrdPairs (fun a b => py_eq b a = false) (add_codes codes resp_codes).
Proof.
  unfold add_codes. revert resp_codes.
  induction codes as [|code codes IH]; intros resp_codes Hd; simpl;
    [exact Hd|].
  apply IH. now apply add_code_distinct.
Qed.

(** The codes collected so far stay in front, and what is added behind them
    are codes of the entries that were not among them. *)
Lemma add_codes_prefix (codes resp_codes : list value) :
  exists new_codes,
    add_codes codes resp_codes = (resp_codes ++ new_codes)%list
    /\ forall x, In x new_codes ->
                 In x codes /\ list_mem x resp_codes = false.
Proof.
  unfold add_codes. revert resp_codes.
  induction codes as [|code codes IH]; intros resp_codes; simpl.
  - exists []. split; [now rewrite app_nil_r | intros x []].
  - unfold add_code at 2.
    destruct (list_mem code resp_codes) eqn:E; simpl.
    + destruct (IH resp_codes) as [new_codes [Heq Hnew]].
      exists new_codes. split; [exact Heq|].
      intros x Hx. destruct (Hnew x Hx). auto.
    + destruct (IH (resp_codes ++ [code])%list) as [new_codes [Heq Hnew]].
      exists (code :: new_codes). split.
      * rewrite Heq. now rewrite <- app_assoc.
      * intros x [<- | Hx]; [auto|].
        destruct (Hnew x Hx) as [Hin Hmem]. split; [now right|].
        rewrite list_mem_app in Hmem. now apply orb_false_iff in Hmem.
Qed.

Lemma add_codes_In (codes resp_codes : list value) (x : value) :
  In x (add_codes codes resp_codes) -> In x resp_codes \/ In x codes.
Proof.
  destruct (add_codes_prefix codes resp_codes) as [new_codes [-> Hnew]].
  intros Hin. apply in_app_or in Hin. destruct Hin as [Hin | Hin];
    [now left | right; now apply Hnew].
Qed.

Lemma add_codes_keeps (codes resp_codes : list value) (x : value) :
  list_mem x resp_codes = true ->
  list_mem x (add_codes codes resp_codes) = true.
Proof.
  destruct (add_codes_prefix codes resp_codes) as [new_codes [-> _]].
  intros E. rewrite list_mem_app, E. reflexivity.
Qed.

Lemma add_codes_app (codes1 codes2 resp_codes : list value) :
  add_codes (codes1 ++ codes2) resp_codes
  = add_codes codes2 (add_codes codes1 resp_codes).
Proof.
  unfold add_codes. apply fold_left_app.
Qed.

(** A code that is equal to itself is among the codes once it was added. *)
Lemma add_codes_mem (codes resp_codes : list value) (x : value) :
  py_eq x x = true -> In x codes ->
  list_mem x (add_codes codes resp_codes) = true.
Proof.
  intros Hrefl Hin. apply in_split in Hin.
  destruct Hin as [codes1 [codes2 ->]].
  rewrite add_codes_app.
  change (x :: codes2) with ([x] ++ codes2)%list.
  rewrite add_codes_app. apply add_codes_keeps.
  change (add_codes [x] (add_codes codes1 resp_codes))
    with (add_code x (add_codes codes1 resp_codes)).
  unfold add_code.
  destruct (list_mem x (add_codes codes1 resp_codes)) eqn:E; simpl;
    [exact E|].
  rewrite list_mem_app. unfold list_mem at 2. simpl.
  rewrite Hrefl. now rewrite orb_true_r.
Qed.

(** A code that is already among the codes adds nothing. *)
Lemma add_codes_skip (codes1 codes2 resp_codes : list value) (x : value) :
  list_mem x resp_codes = true ->
  add_codes (codes1 ++ x :: codes2) resp_codes
  = add_codes (codes1 ++ codes2) resp_codes.
Proof.
  intros E. rewrite !add_codes_app.
  change (x :: codes2) with ([x] ++ codes2)%list.
  rewrite add_codes_app. f_equal.
  change (add_codes [x] (add_codes codes1 resp_codes))
    with (add_code x (add_codes codes1 resp_codes)).
  unfold add_code.
  now rewrite (add_codes_keeps codes1 resp_codes x E).
Qed.

Lemma distinct_NoDup (l : list value) :
  (forall x, In x l -> py_eq x x = true) ->
  ForallOrdPairs (fun a b => py_eq b a = false) l ->
  NoDup l.
Proof.
  intros Hrefl Hd. apply NoDup_iff_ForallOrdPairs.
  induction Hd as [|a l Ha Hl IH]; [constructor|].
  constructor.
  - rewrite Forall_forall in *. intros b Hb Heq. subst b.
    specialize (Ha a Hb). rewrite (Hrefl a (or_introl eq_refl)) in Ha.
    discriminate.
  - apply IH. intros x Hx. apply Hrefl. now right.
Qed.

(** ** The errors of a response *)

Section Responses.
Context `{Imports}.

(** A loop over entries that are all JSON objects: one message for each,
    in their order, and their codes added to the shared list. *)
Lemma collect_objects
    (es : list (list (string * value)))
    (msgs : list string) (resp_codes : list value) :
  collect (map VDict es) msgs resp_codes
  = Ok ((msgs ++ map entry_msg es)%list,
        add_codes (map entry_code es) resp_codes).
Proof.
  revert msgs resp_codes.
  induction es as [|e es IH]; intros msgs resp_codes; simpl.
  - now rewrite app_nil_r.
  - rewrite IH. now rewrite <- app_assoc.
Qed.

(** Whatever a loop is given, the codes stay pairwise different. *)
Lemma collect_distinct
    (entries : list value) (msgs msgs' : list string)
    (resp_codes resp_codes' : list value) :
  collect entries msgs resp_codes = Ok (msgs', resp_codes') ->
  ForallOrdPairs (fun a b => py_eq b a = false) resp_codes ->
  ForallOrdPairs (fun a b => py_eq b a = false) resp_codes'.
Proof.
  revert msgs resp_codes.
  induction entries as [|entry entries IH]; intros msgs resp_codes; simpl.
  - now intros [= _ <-].
  - destruct entry; try discriminate.
    intros Hc Hd. eapply IH; [exact Hc|]. now apply add_code_distinct.
Qed.

(** The body of a response whose [errors] and [warnings], where present,
    are arrays of objects. *)
Lemma parse_body_objects
    (body : list (string * value))
    (es ws : list (list (string * value))) :
  dict_get_default "errors" body (VList []) = VList (map VDict es) ->
  dict_get_default "warnings" body (VList []) = VList (map VDict ws) ->
  parse_body (VDict body)
  = Ok (map entry_msg es, map entry_msg ws,
        add_codes (map entry_code ws) (add_codes (map entry_code es) [])).
Proof.
  intros Hes Hws. unfold parse_body. rewrite Hes, Hws. simpl.
  rewrite collect_objects. simpl. rewrite collect_objects. reflexivity.
Qed.

(** What the extractor returns and leaves in the connection when it gets
    as far as the body. *)
Lemma get_resp_body_errors_parsed
    (c : Connection) (w : World) (the_verb : string) (r : Response)
    (response_data : value)
    (errs warns : list string) (resp_codes : list value) :
  _resp_body_errors c = [] ->
  verb c = Some the_verb ->
  response c = Some r ->
  status_code r = 200%Z ->
  json r = Ok response_data ->
  parse_body response_data = Ok (errs, warns, resp_codes) ->
  returned (_get_resp_body_errors c w) = Ok errs
  /\ conn_after (_get_resp_body_errors c w)
     = set_resp_body errs warns resp_codes c.
Proof.
  intros Hcache Hverb Hresp Hstatus Hjson Hparse.
  unfold _get_resp_body_errors. run.
  rewrite Hcache, Hverb, Hresp, Hstatus, Hjson. simpl. rewrite Hparse.
  simpl.
  destruct (warnings (config c)
            && match warns with [] => false | _ => true end),
    (errors (config c) && match errs with [] => false | _ => true end);
    split; reflexivity.
Qed.

(** The two guards of the extractor: errors already extracted are returned
    again, and without a verb there is nothing to extract. *)
Lemma get_resp_body_errors_cached (c : Connection) (w : World) :
  _resp_body_errors c <> [] ->
  _get_resp_body_errors c w = (Ok (_resp_body_errors c), c, w).
Proof.
  intros Hcache. unfold _get_resp_body_errors. run.
  destruct (_resp_body_errors c); [now elim Hcache | reflexivity].
Qed.

Lemma get_resp_body_errors_no_verb (c : Connection) (w : World) :
  _resp_body_errors c = [] ->
  verb c = None ->
  _get_resp_body_errors c w = (Ok [], c, w).
Proof.
  intros Hcache Hverb. unfold _get_resp_body_errors. run.
  now rewrite Hcache, Hverb.
Qed.

Lemma get_resp_body_errors_not_200
    (c : Connection) (w : World) (r : Response) :
  _resp_body_errors c = [] ->
  response c = Some r ->
  status_code r <> 200%Z ->
  _get_resp_body_errors c w = (Ok [], c, w).
Proof.
  intros Hcache Hresp Hstatus. unfold _get_resp_body_errors. run.
  rewrite Hcache, Hresp. apply Z.eqb_neq in Hstatus. rewrite Hstatus.
  simpl. now destruct (verb c).
Qed.

(** C7, as the code has it.  For a response whose status is not 200,
    [process_response] returns without raising and leaves the reason
    phrase in [_response_error]; the extractor of body errors returns the
    connection and the world as they were, never calling [json()], and an
    empty list provided no body errors are cached in the connection;
    cached ones are returned again. *)
Theorem non_200_response :
  forall (c : Connection) (w : World) (r : Response)
         (parse_response : bool),
    response c = Some r ->
    status_code r <> 200%Z ->
    process_response parse_response c w
    = (Ok tt, set_response_error (Some (reason r)) c, w)
    /\ (_resp_body_errors c = [] ->
        _get_resp_body_errors c w = (Ok [], c, w))
    /\ (_resp_body_errors c <> [] ->
        _get_resp_body_errors c w = (Ok (_resp_body_errors c), c, w)).
Proof.
  intros c w r parse_response Hresp Hstatus. split; [|split].
  - unfold process_response. run. rewrite Hresp.
    apply Z.eqb_neq in Hstatus. now rewrite Hstatus.
  - intros Hcache. now apply get_resp_body_errors_not_200 with r.
  - apply get_resp_body_errors_cached.
Qed.

(** What the extractor does when it gets to the body.  On a connection with
    a verb set and no body errors cached, for a 200 response whose body is
    a JSON object with arrays of objects under [errors] and [warnings]
    (either may be missing): the extractor returns one string
    [Category: X, Code: Y, message] for each entry of [errors], in their
    order, and keeps them in [_resp_body_errors]; the entries of
    [warnings] are formatted the same way into [_resp_body_warnings] and
    add nothing to what is returned.  One error gives one string, and
    warnings alone give no error. *)
Theorem body_errors_extracted :
  forall (c : Connection) (w : World) (the_verb : string) (r : Response)
         (body : list (string * value))
         (es ws : list (list (string * value))),
    _resp_body_errors c = [] ->
    verb c = Some the_verb ->
    response c = Some r ->
    status_code r = 200%Z ->
    json r = Ok (VDict body) ->
    dict_get_default "errors" body (VList []) = VList (map VDict es) ->
    dict_get_default "warnings" body (VList []) = VList (map VDict ws) ->
    let after := _get_resp_body_errors c w in
    returned after = Ok (map entry_msg es)
    /\ _resp_body_errors (conn_after after) = map entry_msg es
    /\ _resp_body_warnings (conn_after after) = map entry_msg ws
    /\ length (map entry_msg es) = length es
    /\ (forall e,
           entry_msg e
           = "Category: " ++ py_str (dict_get_default "category" e VNone)
             ++ ", Code: " ++ py_str (dict_get_default "errorId" e VNone)
             ++ ", " ++ py_str (dict_get_default "message" e VNone))
    /\ (forall e, es = [e] -> returned after = Ok [entry_msg e])
    /\ (es = [] -> returned after = Ok []).
Proof.
  intros c w the_verb r body es ws Hcache Hverb Hresp Hstatus Hjson
    Hes Hws after.
  destruct (get_resp_body_errors_parsed c w the_verb r (VDict body)
              _ _ _ Hcache Hverb Hresp Hstatus Hjson
              (parse_body_objects body es ws Hes Hws)) as [Hret Hconn].
  fold after in Hret, Hconn.
  repeat split.
  - exact Hret.
  - now rewrite Hconn.
  - now rewrite Hconn.
  - apply length_map.
  - intros e ->. exact Hret.
  - intros ->. exact Hret.
Qed.

(** Whatever the connection and the response, a call of the extractor
    leaves the recorded codes pairwise different if they were. *)
Lemma resp_codes_stay_distinct (c : Connection) (w : World) :
  ForallOrdPairs (fun a b => py_eq b a = false) (_resp_codes c) ->
  ForallOrdPairs (fun a b => py_eq b a = false)
    (_resp_codes (conn_after (_get_resp_body_errors c w))).
Proof.
  intros Hd. unfold _get_resp_body_errors. run.
  destruct (_resp_body_errors c); [|exact Hd].
  destruct (verb c) as [the_verb|]; [|exact Hd].
  destruct (response c) as [r|]; [|exact Hd].
  destruct (negb (Z.eqb (status_code r) 200)); [exact Hd|].
  destruct (json r) as [response_data | e]; simpl; [|exact Hd].
  destruct (parse_body response_data) as [[[errs warns] codes] | e] eqn:E;
    simpl; [|exact Hd].
  assert (Hcodes : ForallOrdPairs (fun a b => py_eq b a = false) codes).
  { unfold parse_body in E. destruct response_data; try discriminate.
    unfold rbind in E.
    destruct (py_iter (dict_get_default "errors" d (VList [])));
      [|discriminate].
    destruct (collect a [] []) as [[m1 c1]|] eqn:E1; [|discriminate].
    destruct (py_iter (dict_get_default "warnings" d (VList [])));
      [|discriminate].
    simpl in E.
    destruct (collect a0 [] c1) as [[m2 c2]|] eqn:E2; [|discriminate].
    injection E as _ _ <-. simpl.
    eapply collect_distinct; [exact E2|].
    eapply collect_distinct; [exact E1|]. constructor. }
  destruct (warnings (config c)
            && match warns with [] => false | _ => true end),
    (errors (config c) && match errs with [] => false | _ => true end);
    exact Hcodes.
Qed.
(** C9.  The codes the extractor records in [_resp_codes] are collected in
    one list shared by the two arrays.  A call never makes two recorded
    codes equal: if no code of the list equalled an earlier one before the
    call, none does after it.  When the extractor builds the list, that is
    on a connection with a verb set and no body errors cached, for a 200
    response whose body has arrays of objects under [errors] and
    [warnings]: the codes are collected first from the errors and then
    from the warnings, a code being added only if none equal to it is in
    the list yet.  So the codes of the errors come first, what follows are
    codes of warnings that are not among them, no code of the list equals
    an earlier one, every recorded code is the code of an entry, a warning
    whose code is among those of the errors could be left out without
    changing the list, and, Python dicts having each key once, no value is
    twice in the list and every code of an entry is in it. *)
Theorem resp_codes_deduplicated :
  forall (c : Connection) (w : World),
    let codes := _resp_codes (conn_after (_get_resp_body_errors c w)) in
    (ForallOrdPairs (fun a b => py_eq b a = false) (_resp_codes c) ->
     ForallOrdPairs (fun a b => py_eq b a = false) codes)
    /\ forall (the_verb : string) (r : Response)
              (body : list (string * value))
              (es ws : list (list (string * value))),
        _resp_body_errors c = [] ->
        verb c = Some the_verb ->
        response c = Some r ->
        status_code r = 200%Z ->
        json r = Ok (VDict body) ->
        dict_get_default "errors" body (VList []) = VList (map VDict es) ->
        dict_get_default "warnings" body (VList []) = VList (map VDict ws) ->
        let error_codes := add_codes (map entry_code es) [] in
        codes = add_codes (map entry_code ws) error_codes
        /\ (exists new_codes,
               codes = (error_codes ++ new_codes)%list
               /\ forall x, In x new_codes ->
                            In x (map entry_code ws)
                            /\ list_mem x error_codes = false)
        /\ ForallOrdPairs (fun a b => py_eq b a = false) codes
        /\ (forall x, In x codes ->
                      In x (map entry_code es) \/ In x (map entry_code ws))
        /\ (forall ws1 warning ws2,
               ws = (ws1 ++ warning :: ws2)%list ->
               list_mem (entry_code warning) error_codes = true ->
               codes = add_codes (map entry_code (ws1 ++ ws2)) error_codes)
        /\ (wf_value (VDict body) ->
            NoDup codes
            /\ forall e, In e es \/ In e ws ->
                         list_mem (entry_code e) codes = true).
Proof.
  intros c w codes. split; [apply resp_codes_stay_distinct|].
  intros the_verb r body es ws Hcache Hverb Hresp Hstatus Hjson
    Hes Hws error_codes.
  destruct (get_resp_body_errors_parsed c w the_verb r (VDict body)
              _ _ _ Hcache Hverb Hresp Hstatus Hjson
              (parse_body_objects body es ws Hes Hws)) as [_ Hconn].
  assert (Hcodes : codes = add_codes (map entry_code ws) error_codes)
    by (unfold codes; now rewrite Hconn).
  assert (Hdistinct : ForallOrdPairs (fun a b => py_eq b a = false) codes).
  { rewrite Hcodes. apply add_codes_distinct.
    unfold error_codes. apply add_codes_distinct. constructor. }
  assert (Hfrom : forall x, In x codes ->
                    In x (map entry_code es) \/ In x (map entry_code ws)).
  { intros x Hx. rewrite Hcodes in Hx. apply add_codes_In in Hx.
    destruct Hx as [Hx | Hx]; [|now right].
    apply add_codes_In in Hx. destruct Hx as [[] | Hx]. now left. }
  split; [exact Hcodes|]. split; [|split; [exact Hdistinct|]].
  - rewrite Hcodes. apply add_codes_prefix.
  - split; [exact Hfrom|]. split.
    + intros ws1 warning ws2 -> Hmem. rewrite Hcodes.
      rewrite !map_app. simpl. now apply add_codes_skip.
    + intros Hwf.
      assert (Hentries : forall e, In e es \/ In e ws ->
                           py_eq (entry_code e) (entry_code e) = true).
      { intros e He. apply py_eq_refl. unfold entry_code.
        apply wf_dict_get_default; [|exact I].
        assert (Hl : forall key l,
                   dict_get_default key body (VList []) = VList l ->
                   Forall wf_value l).
        { intros key l E. apply wf_value_list. rewrite <- E.
          now apply wf_dict_get_default. }
        destruct He as [He | He].
        - pose proof (Hl _ _ Hes) as Hall. rewrite Forall_forall in Hall.
          apply (Hall (VDict e)). now apply in_map.
        - pose proof (Hl _ _ Hws) as Hall. rewrite Forall_forall in Hall.
          apply (Hall (VDict e)). now apply in_map. }
      split.
      * apply distinct_NoDup; [|exact Hdistinct].
        intros x Hx. destruct (Hfrom x Hx) as [Hin | Hin];
          apply in_map_iff in Hin; destruct Hin as [e [<- He]];
          apply Hentries; auto.
      * intros e He. rewrite Hcodes. destruct He as [He | He].
        -- apply add_codes_keeps. unfold error_codes.
           apply add_codes_mem; [apply Hentries; now left|].
           now apply in_map.
        -- apply add_codes_mem; [apply Hentries; now right|].
           now apply in_map.
Qed.
End Responses.

(** C8.  Where the extractor does not do what is claimed.  On the input of
    [test_get_resp_body_errors_with_errors], a connection on which no verb
    was set and whose response has status 200 and the one error of the
    test in its body, the extractor returns no error and records nothing,
    because [self.verb is None] sends it back before it reads the body
    (line 193); the test asserts one error, as the claim does.  The same
    body on a connection with a verb gives the one formatted string.  On
    the input of [test_get_resp_body_errors_with_warnings] it leaves
    [_resp_body_warnings] empty, where that test asserts one warning. *)
Theorem body_errors_without_verb :
  verb no_verb_connection = None
  /\ response no_verb_connection
     = Some (response_200 [("errors", VList [VDict test_error])])
  /\ @_get_resp_body_errors python3 no_verb_connection test_world
     = (Ok [], no_verb_connection, test_world)
  /\ returned (@_get_resp_body_errors python3
                 (set_verb (Some "search") no_verb_connection) test_world)
     = Ok ["Category: ERROR, Code: 123, Test error"]
  /\ _resp_body_warnings
       (conn_after
          (@_get_resp_body_errors python3
             (set_response
                (Some (response_200
                         [("warnings", VList [VDict test_warning])]))
                (new_connection test_config))
             test_world))
     = [].
Proof.
  repeat split.
Qed.

(** ** The methods on the inputs of the test suite *)

Example test_build_request_url_search :
  @build_request_url python3
    (set_request_dict (VDict [("q", VStr "test"); ("limit", VInt 5)])
       (new_connection test_config))
    "search"
  = Ok "https://api.ebay.com/buy/browse/v1/item_summary/search".
Proof. reflexivity. Qed.

Example test_build_request_url_get_item :
  @build_request_url python3
    (set_request_dict (VDict [("item_id", VStr "123456789")])
       (new_connection test_config))
    "getItem"
  = Ok "https://api.ebay.com/buy/browse/v1/item/123456789".
Proof. reflexivity. Qed.

Example test_build_request_url_get_item_missing_id :
  @build_request_url python3
    (set_request_dict (VDict []) (new_connection test_config)) "getItem"
  = Raise (ValueError
             "item_id is required for getItem and checkCompatibility").
Proof. reflexivity. Qed.

Example test_build_request_url_check_compatibility :
  @build_request_url python3
    (set_request_dict (VDict [("item_id", VStr "123456789")])
       (new_connection test_config))
    "checkCompatibility"
  = Ok "https://api.ebay.com/buy/browse/v1/item/123456789/check_compatibility".
Proof. reflexivity. Qed.

Example test_build_request_data_none :
  @build_request_data python3 "search" VNone VNone = EmptyString.
Proof. reflexivity. Qed.

Example test_build_request_query :
  @build_request_query python3 "search"
    (VDict [("q", VStr "test"); ("limit", VInt 5)])
  = Some [("q", VStr "test"); ("limit", VInt 5)].
Proof. reflexivity. Qed.

Example test_build_request_query_post :
  @build_request_query python3 "searchByImage"
    (VDict [("image", VStr "base64encodedimage"); ("limit", VInt 5)])
  = None.
Proof. reflexivity. Qed.

Example test_build_request_headers :
  returned (@build_request_headers python3 "search" cached_connection
              test_world)
  = Ok [ ("Content-Type", "application/json");
         ("Accept", "application/json");
         ("Authorization", "Bearer test_token");
         ("User-Agent", @UserAgent python3);
         ("X-EBAY-C-MARKETPLACE-ID", "EBAY_US") ].
Proof. reflexivity. Qed.

Example warnings_alone_give_no_error :
  let after :=
    @_get_resp_body_errors python3
      (set_verb (Some "search")
         (set_response
            (Some (response_200 [("warnings", VList [VDict test_warning])]))
            (new_connection test_config)))
      test_world in
  returned after = Ok []
  /\ _resp_body_warnings (conn_after after)
     = ["Category: WARNING, Code: 456, Test warning"].
Proof. split; reflexivity. Qed.

Example test_process_response_non_200 :
  _response_error
    (conn_after
       (process_response true
          (set_response (Some response_404) (new_connection test_config))
          test_world))
  = Some "Not Found".
Proof. reflexivity. Qed.

Example equal_codes_of_different_types :
  add_codes [VInt 1; VBool true; VStr "1"; VInt 1] []
  = [VInt 1; VStr "1"].
Proof. reflexivity. Qed.

(** ** The theorems at work, and where the specification says too much *)

(** The fixture's cached token is returned without a request; a connection
    without a token asks the endpoint once and keeps the answer. *)
Lemma access_token_lazy_cache_witness :
  @access_token python3 cached_connection test_world
  = (Ok "test_token", cached_connection, test_world)
  /\ @access_token python3 (new_connection test_config) test_world
     = (Ok "new_token",
        set_token (Some new_token) (new_connection test_config),
        add_token_request
          (token_request (new_connection test_config)) test_world).
Proof.
  split.
  - apply (proj1 (@access_token_lazy_cache python3 cached_connection
                    test_world) test_token); reflexivity.
  - apply (proj2 (proj2 (@access_token_lazy_cache python3
                           (new_connection test_config) test_world))
             (or_introl eq_refl) eq_refl eq_refl new_token eq_refl).
Defined.

(** [search] is sent with GET and [searchByImage] with POST. *)
Lemma build_request_method_witness :
  method (conn_after
            (@build_request python3 "search" (VDict [("q", VStr "test")])
               VNone VNone cached_connection test_world))
  = "GET"
  /\ method (conn_after
               (@build_request python3 "searchByImage"
                  (VDict [("image", VStr "test")])
                  VNone VNone cached_connection test_world))
     = "POST".
Proof.
  split.
  - apply (proj1 (proj2 (@build_request_method python3 "search"
                           (VDict [("q", VStr "test")]) VNone VNone
                           cached_connection test_world))).
    intros [E | E]; discriminate.
  - apply (proj1 (@build_request_method python3 "searchByImage"
                    (VDict [("image", VStr "test")]) VNone VNone
                    cached_connection test_world)).
    now left.
Defined.

(** [getItem] with [item_id=123]. *)
Lemma build_request_url_item_id_witness :
  @build_request_url python3 getItem_connection "getItem"
  = Ok "https://api.ebay.com/buy/browse/v1/item/123".
Proof.
  exact (proj2 (proj2 (@build_request_url_item_id python3
                         getItem_connection "getItem"
                         (or_introl eq_refl)
                         (or_intror
                            (ex_intro _ [("item_id", VInt 123)] eq_refl))))
           eq_refl eq_refl).
Defined.

(** [search] has a query and no body, [searchByImage] a body and no
    query. *)
Lemma query_and_body_exclusive_witness :
  (@build_request_data python3 "search"
     (VDict [("q", VStr "test"); ("limit", VInt 5)]) VNone = EmptyString
   /\ exists q,
       @build_request_query python3 "search"
         (VDict [("q", VStr "test"); ("limit", VInt 5)]) = Some q)
  /\ @build_request_query python3 "searchByImage"
       (VDict [("image", VStr "base64encodedimage"); ("limit", VInt 5)])
     = None.
Proof.
  split.
  - destruct (proj2 (@query_and_body_exclusive python3 "search"
                       [("q", VStr "test"); ("limit", VInt 5)] VNone))
      as [Hdata [q [Hq _]]].
    + intros [E | E]; discriminate.
    + split; [exact Hdata | now exists q].
  - apply (proj1 (@query_and_body_exclusive python3 "searchByImage"
                    [("image", VStr "base64encodedimage"); ("limit", VInt 5)]
                    VNone)).
    now left.
Defined.

(** A key of [getItem] whose value is [None] is not kept: from
    [{item_id: 123, fieldgroups: None}] the query is empty. *)
Lemma getItem_query_keeps_every_key_counterexample :
  ~ (forall (d : list (string * value)) (k : string),
        k <> "item_id" ->
        dict_mem k d = true ->
        exists q,
          @build_request_query python3 "getItem" (VDict d) = Some q
          /\ dict_mem k q = true).
Proof.
  intros Hclaim.
  destruct (Hclaim [("item_id", VInt 123); ("fieldgroups", VNone)]
              "fieldgroups") as [q [Hq Hk]].
  - discriminate.
  - reflexivity.
  - vm_compute in Hq. injection Hq as <-. discriminate.
Qed.

Lemma getItem_query_excludes_item_id_witness :
  @build_request_query python3 "getItem"
    (VDict [("item_id", VInt 123); ("fieldgroups", VStr "PRODUCT")])
  = Some [("fieldgroups", VStr "PRODUCT")].
Proof.
  exact (proj2 (proj2 (@getItem_query_excludes_item_id python3 []))
           eq_refl).
Defined.

(** Without credentials the accessor raises and asks nothing; with an
    endpoint that cannot be reached it raises a [ConnectionError]. *)
Lemma access_token_failures_witness :
  @access_token python3 (new_connection no_credentials_config) test_world
  = (Raise (ValueError
       "appid (client id) and certid (client secret) are required for OAuth"),
     new_connection no_credentials_config, test_world)
  /\ @access_token python3 (new_connection test_config) offline_world
     = (Raise (ConnectionError
                 "Failed to get access token: connection refused"),
        new_connection test_config,
        add_token_request
          (token_request (new_connection test_config)) offline_world).
Proof.
  split.
  - apply (proj1 (@access_token_failures python3
                    (new_connection no_credentials_config) test_world
                    (or_introl eq_refl))).
    now left.
  - apply (proj2 (@access_token_failures python3
                    (new_connection test_config) offline_world
                    (or_introl eq_refl))
             eq_refl eq_refl (RequestException "connection refused")
             eq_refl).
    exists "connection refused". now right.
Defined.

(** The extractor on a 404 answer that follows an answer whose errors were
    extracted and not reset: the errors of the earlier answer come back. *)
Lemma non_200_response_counterexample :
  ~ (forall (c : Connection) (w : World) (r : Response),
        response c = Some r ->
        status_code r <> 200%Z ->
        returned (@_get_resp_body_errors python3 c w) = Ok []).
Proof.
  intros Hclaim.
  specialize (Hclaim stale_connection test_world response_404 eq_refl).
  assert (Hstatus : status_code response_404 <> 200%Z) by discriminate.
  specialize (Hclaim Hstatus). vm_compute in Hclaim. discriminate.
Qed.

Lemma non_200_response_witness :
  process_response true
    (set_response (Some response_404) (new_connection test_config))
    test_world
  = (Ok tt,
     set_response_error (Some "Not Found")
       (set_response (Some response_404) (new_connection test_config)),
     test_world)
  /\ @_get_resp_body_errors python3
       (set_response (Some response_404) (new_connection test_config))
       test_world
     = (Ok [],
        set_response (Some response_404) (new_connection test_config),
        test_world)
  /\ returned (@_get_resp_body_errors python3 stale_connection test_world)
     = Ok ["Category: ERROR, Code: 123, Test error"].
Proof.
  assert (Hstatus : status_code response_404 <> 200%Z) by discriminate.
  split; [|split].
  - exact (proj1 (@non_200_response python3
                    (set_response (Some response_404)
                       (new_connection test_config))
                    test_world response_404 true eq_refl Hstatus)).
  - exact (proj1 (proj2 (@non_200_response python3
                           (set_response (Some response_404)
                              (new_connection test_config))
                           test_world response_404 true eq_refl Hstatus))
             eq_refl).
  - rewrite (proj2 (proj2 (@non_200_response python3 stale_connection
                             test_world response_404 true eq_refl Hstatus)));
      [reflexivity | discriminate].
Defined.

(** Not every 200 answer has its errors returned: with one error in the
    body and no verb set, none is. *)
Lemma body_errors_extracted_counterexample :
  ~ (forall (c : Connection) (w : World) (r : Response)
            (body : list (string * value))
            (es ws : list (list (string * value))),
        response c = Some r ->
        status_code r = 200%Z ->
        json r = Ok (VDict body) ->
        dict_get_default "errors" body (VList []) = VList (map VDict es) ->
        dict_get_default "warnings" body (VList []) = VList (map VDict ws) ->
        returned (@_get_resp_body_errors python3 c w)
        = Ok (map (@entry_msg python3) es)).
Proof.
  intros Hclaim.
  specialize (Hclaim no_verb_connection test_world
                (response_200 [("errors", VList [VDict test_error])])
                [("errors", VList [VDict test_error])]
                [test_error] []
                eq_refl eq_refl eq_refl eq_refl eq_refl).
  vm_compute in Hclaim. discriminate.
Qed.

Lemma body_errors_extracted_witness :
  returned (@_get_resp_body_errors python3
              (set_verb (Some "search") no_verb_connection) test_world)
  = Ok ["Category: ERROR, Code: 123, Test error"].
Proof.
  exact (proj1 (@body_errors_extracted python3
                  (set_verb (Some "search") no_verb_connection) test_world
                  "search"
                  (response_200 [("errors", VList [VDict test_error])])
                  [("errors", VList [VDict test_error])]
                  [test_error] []
                  eq_refl eq_refl eq_refl eq_refl eq_refl eq_refl eq_refl)).
Defined.

(** One error and two warnings, the second with the code of the error: two
    codes are recorded. *)
Lemma resp_codes_deduplicated_witness :
  _resp_codes
    (conn_after (@_get_resp_body_errors python3 answered_connection
                   test_world))
  = [VStr "123"; VStr "456"].
Proof.
  exact (proj1 (proj2 (@resp_codes_deduplicated python3 answered_connection
                         test_world)
                  "search" (response_200 test_body) test_body
                  [test_error] [test_warning; test_error]
                  eq_refl eq_refl eq_refl eq_refl eq_refl eq_refl eq_refl)).
Defined.

(** A parameter passed as [None] is not in the query. *)
Lemma build_request_query_drops_None_witness :
  exists q,
    @build_request_query python3 "search"
      (VDict [("q", VStr "test"); ("limit", VNone)]) = Some q
    /\ map fst q = ["q"].
Proof.
  destruct (@build_request_query_drops_None python3 "search"
              [("q", VStr "test"); ("limit", VNone)])
    as [q [Hq [Hkeys _]]].
  - intros [E | E]; discriminate.
  - exists q. split; [exact Hq | exact Hkeys].
Defined.

(** * Further properties of the module *)

(** ** The token accessor as a whole *)

Lemma set_token_same (c : Connection) : set_token (_token c) c = c.
Proof. now destruct c. Qed.

Lemma set_resp_body_same (c : Connection) :
  set_resp_body (_resp_body_errors c) (_resp_body_warnings c)
    (_resp_codes c) c = c.
Proof. now destruct c. Qed.

Section TokenAccess.
Context `{Imports}.

(** The four ways an access can go. *)
Lemma access_token_outcome (c : Connection) (w : World) :
  (exists token,
      _token c = Some token /\ is_expired token (now w) = false
      /\ access_token c w = (Ok (OAuth2Token.access_token token), c, w))
  \/ (token_absent_or_expired c w = true
      /\ exists msg, access_token c w = (Raise (ValueError msg), c, w))
  \/ (token_absent_or_expired c w = true
      /\ exists token,
          token_endpoint w (token_requests w) (token_request c) = Ok token
          /\ access_token c w
             = (Ok (OAuth2Token.access_token token),
                set_token (Some token) c,
                add_token_request (token_request c) w))
  \/ (token_absent_or_expired c w = true
      /\ exists e e',
          token_endpoint w (token_requests w) (token_request c) = Raise e
          /\ access_token c w
             = (Raise e', c, add_token_request (token_request c) w)).
Proof.
  destruct (token_absent_or_expired c w) eqn:Hneed.
  - right.
    destruct (truthy (appid (config c))) eqn:Hid;
      [destruct (truthy (certid (config c))) eqn:Hsecret|].
    + right.
      destruct (token_endpoint w (token_requests w) (token_request c))
        as [token | e] eqn:Hanswer.
      * left. split; [reflexivity|]. exists token. split; [reflexivity|].
        now apply access_token_refreshed.
      * right. split; [reflexivity|]. exists e.
        unfold access_token. run. rewrite Hneed, Hid, Hsecret. simpl.
        rewrite Hanswer. destruct e; eexists; split; reflexivity.
    + left. split; [reflexivity|]. eexists.
      apply access_token_no_credentials; auto.
    + left. split; [reflexivity|]. eexists.
      apply access_token_no_credentials; auto.
  - left. unfold token_absent_or_expired in Hneed.
    destruct (_token c) as [token|] eqn:Htok; [|discriminate].
    exists token. split; [reflexivity|]. split; [exact Hneed|].
    now apply access_token_cached.
Qed.

(** X1.  An access changes nothing of the connection but the cached token,
    and nothing of the world but the list of token requests, to which it
    adds at most one request, the client-credentials request of the
    connection; the clock, the endpoint and the log stay as they were. *)
Theorem access_token_frame :
  forall (c : Connection) (w : World),
    let c' := conn_after (access_token c w) in
    let w' := world_after (access_token c w) in
    c' = set_token (_token c') c
    /\ (w' = w \/ w' = add_token_request (token_request c) w)
    /\ log w' = log w
    /\ now w' = now w
    /\ (length (token_requests w') <= S (length (token_requests w)))%nat.
Proof.
  intros c w c' w'. subst c' w'.
  destruct (access_token_outcome c w)
    as [[token [Htok [_ ->]]]
       | [[_ [msg ->]]
         | [[_ [token [_ ->]]] | [_ [e [e' [_ ->]]]]]]];
    unfold conn_after, world_after; simpl;
    rewrite ?set_token_same, ?length_app; simpl;
    repeat split; auto; lia.
Qed.

(** X2.  An access that raises leaves the connection as it was: an expired
    token stays cached, and no token is stored. *)
Theorem access_token_failure_keeps_connection :
  forall (c : Connection) (w : World) (e : exn),
    returned (access_token c w) = Raise e ->
    conn_after (access_token c w) = c.
Proof.
  intros c w e.
  destruct (access_token_outcome c w)
    as [[token [_ [_ ->]]]
       | [[_ [msg ->]]
         | [[_ [token [_ ->]]] | [_ [e0 [e' [_ ->]]]]]]];
    unfold returned, conn_after; simpl; congruence.
Qed.

(** X3.  Only an [OAuth2Error] and a [RequestException] are turned into a
    [ConnectionError].  When a refresh is needed and the credentials are
    there, any other exception of the token request leaves the accessor as
    it is, after the request was made and with no token stored. *)
Theorem access_token_other_exception :
  forall (c : Connection) (w : World) (e : exn),
    (_token c = None
     \/ exists token,
          _token c = Some token /\ is_expired token (now w) = true) ->
    truthy (appid (config c)) = true ->
    truthy (certid (config c)) = true ->
    token_endpoint w (token_requests w) (token_request c) = Raise e ->
    (forall msg, e <> OAuth2Error msg) ->
    (forall msg, e <> RequestException msg) ->
    access_token c w = (Raise e, c, add_token_request (token_request c) w).
Proof.
  intros c w e Hneed Hid Hsecret Hanswer Hoauth Hrequest.
  apply token_absent_or_expired_iff in Hneed.
  unfold access_token. run. rewrite Hneed, Hid, Hsecret. simpl.
  rewrite Hanswer.
  destruct e; try reflexivity.
  - now elim (Hoauth msg).
  - now elim (Hrequest msg).
Qed.

(** What an access returns is a field of the token it leaves cached. *)
Lemma access_token_returns_cached
    (c : Connection) (w : World) (text : string) :
  returned (access_token c w) = Ok text ->
  exists token,
    _token (conn_after (access_token c w)) = Some token
    /\ OAuth2Token.access_token token = text.
Proof.
  destruct (access_token_outcome c w)
    as [[token [Htok [_ ->]]]
       | [[_ [msg ->]]
         | [[_ [token [_ ->]]] | [_ [e0 [e' [_ ->]]]]]]];
    unfold returned, conn_after; simpl; try discriminate;
    intros [= <-]; exists token; auto.
Qed.

(** X4.  What an access returns is the [access_token] field of the token
    cached after it; and as long as that token is not expired, a further
    access, at whatever time and in whatever world, returns the same text
    and leaves the connection and the world as they are. *)
Theorem access_token_reused :
  forall (c : Connection) (w : World) (text : string),
    returned (access_token c w) = Ok text ->
    let c' := conn_after (access_token c w) in
    (exists token,
        _token c' = Some token /\ OAuth2Token.access_token token = text)
    /\ forall (w2 : World),
        (forall token, _token c' = Some token ->
                       is_expired token (now w2) = false) ->
        access_token c' w2 = (Ok text, c', w2).
Proof.
  intros c w text Hret c'. subst c'.
  pose proof (access_token_returns_cached c w text Hret) as Hcached.
  split; [exact Hcached|].
  intros w2 Hfresh. destruct Hcached as [token [Htok <-]].
  apply access_token_cached; auto.
Qed.

(** The accessor reads the configuration and the cached token, and nothing
    else of the connection. *)
Lemma access_token_reads (c1 c2 : Connection) (w : World) :
  config c1 = config c2 ->
  _token c1 = _token c2 ->
  returned (access_token c1 w) = returned (access_token c2 w)
  /\ world_after (access_token c1 w) = world_after (access_token c2 w)
  /\ _token (conn_after (access_token c1 w))
     = _token (conn_after (access_token c2 w)).
Proof.
  intros Hcfg Htok.
  unfold access_token, token_absent_or_expired, token_request. run.
  rewrite Hcfg, Htok.
  destruct (match _token c2 with
            | Some token => is_expired token (now w)
            | None => true
            end).
  - destruct (negb (truthy (appid (config c2)))
              || negb (truthy (certid (config c2)))); simpl.
    + repeat split; auto.
    + match goal with
      | |- context [token_endpoint w (token_requests w) ?r] =>
          destruct (token_endpoint w (token_requests w) r) as [token | []]
      end; simpl; repeat split; auto.
  - simpl. rewrite Htok.
    destruct (_token c2) eqn:E; repeat split; simpl; congruence.
Qed.
End TokenAccess.

(** ** The request as a whole *)

Section WholeRequest.
Context `{Imports}.

(** An access leaves the configuration and the request attributes alone. *)
Lemma access_token_only_token (c : Connection) (w : World) :
  conn_after (access_token c w)
  = set_token (_token (conn_after (access_token c w))) c.
Proof.
  destruct (access_token_outcome c w)
    as [[token [Htok [_ ->]]]
       | [[_ [msg ->]]
         | [[_ [token [_ ->]]] | [_ [e [e' [_ ->]]]]]]];
    unfold conn_after; simpl; now rewrite ?set_token_same.
Qed.

(** [build_request], step by step: the three assignments, the URL, the
    headers with the access token, and the request. *)
Lemma build_request_run
    (verb : string) (data verb_attrs files : value)
    (c : Connection) (w : World) :
  let m := if str_in verb ["searchByImage"; "checkCompatibility"]
           then "POST" else "GET" in
  let c3 := set_method m (set_request_dict data (set_verb (Some verb) c)) in
  build_request verb data verb_attrs files c w
  = match build_request_url c3 verb with
    | Raise e => (Raise e, c3, w)
    | Ok u =>
        match access_token c3 w with
        | (Raise e, c4, w4) => (Raise e, c4, w4)
        | (Ok text, c4, w4) =>
            let req :=
              {| req_method := method c4;
                 req_url := u;
                 req_params := build_request_query verb data;
                 req_data :=
                   smart_encode_request_data
                     (build_request_data verb data verb_attrs);
                 req_headers := headers_of text (siteid (config c4));
                 req_files := files |} in
            match prepare_raises req with
            | Some e => (Raise e, c4, w4)
            | None => (Ok tt, set_request (Some req) c4, w4)
            end
        end
    end.
Proof.
  intros m c3. unfold build_request, build_request_headers.
  unfold bind at 1 2 3. unfold update at 1 2.
  replace ((if str_in verb ["searchByImage"; "checkCompatibility"]
            then update (set_method "POST")
            else update (set_method "GET"))
             (set_request_dict data (set_verb (Some verb) c)) w)
    with (Ok tt, c3, w)
    by (unfold c3, m;
        destruct (str_in verb ["searchByImage"; "checkCompatibility"]);
        reflexivity).
  run.
  destruct (build_request_url c3 verb) as [u | e]; simpl; [|reflexivity].
  destruct (access_token c3 w) as [[[text | e] c4] w4]; [|reflexivity].
  cbv zeta. unfold headers_of. simpl.
  match goal with
  | |- context [prepare_raises ?r] => destruct (prepare_raises r)
  end; reflexivity.
Qed.

(** X5.  The headers are built around one access of the token: the call
    leaves the connection and the world as that access does and raises what
    it raises; when it returns, the [Authorization] header is [Bearer]
    followed by the access token cached after the call, the marketplace
    header is the configured [siteid], and the verb plays no part. *)
Theorem build_request_headers_token :
  forall (verb : string) (c : Connection) (w : World),
    let after := build_request_headers verb c w in
    conn_after after = conn_after (access_token c w)
    /\ world_after after = world_after (access_token c w)
    /\ (forall e, returned after = Raise e
                  <-> returned (access_token c w) = Raise e)
    /\ (forall hs,
           returned after = Ok hs ->
           exists token,
             _token (conn_after after) = Some token
             /\ hs = headers_of (OAuth2Token.access_token token)
                       (siteid (config c))).
Proof.
  intros verb c w after. subst after.
  pose proof (access_token_only_token c w) as Hframe.
  unfold build_request_headers. run.
  destruct (access_token c w) as [[[text | e] c'] w'] eqn:E;
    unfold conn_after in Hframe; simpl in *.
  - repeat split; try discriminate.
    intros hs [= <-].
    assert (Hret : returned (access_token c w) = Ok text)
      by (now rewrite E).
    destruct (access_token_returns_cached c w text Hret)
      as [token [Htok Ht]].
    rewrite E in Htok. simpl in Htok.
    exists token. split; [exact Htok|].
    pose proof (f_equal config Hframe) as Hcfg. simpl in Hcfg.
    rewrite Hcfg, Ht. reflexivity.
  - split; [reflexivity|]. split; [reflexivity|]. split.
    + intros e0. split; intros [= ->]; reflexivity.
    + intros hs Hhs. discriminate Hhs.
Qed.

(** The URL is read off the configuration and the request dict alone. *)
Lemma build_request_url_reads (c1 c2 : Connection) (verb : string) :
  config c1 = config c2 ->
  _request_dict c1 = _request_dict c2 ->
  build_request_url c1 verb = build_request_url c2 verb.
Proof.
  intros Hcfg Hrd. unfold build_request_url, base_url.
  now rewrite Hcfg, Hrd.
Qed.

(** X6.  For [getItem] and [checkCompatibility] without an item id (no
    request dict, or one without the key), [build_request] raises the
    [ValueError] before it asks for the access token: the world is as it
    was, whether or not a token is cached, and neither the cached token nor
    the request prepared earlier is touched. *)
Theorem build_request_missing_item_id :
  forall (verb : string) (data verb_attrs files : value)
         (c : Connection) (w : World),
    verb = "getItem" \/ verb = "checkCompatibility" ->
    (data = VNone
     \/ exists d, data = VDict d /\ dict_get "item_id" d = None) ->
    let after := build_request verb data verb_attrs files c w in
    returned after
    = Raise (ValueError
               "item_id is required for getItem and checkCompatibility")
    /\ world_after after = w
    /\ _token (conn_after after) = _token c
    /\ request (conn_after after) = request c.
Proof.
  intros verb data verb_attrs files c w Hv Hdata after. subst after.
  rewrite build_request_run.
  set (c3 := set_method _ _).
  assert (Hurl : build_request_url c3 verb
                 = Raise (ValueError
                     "item_id is required for getItem and checkCompatibility")).
  { destruct Hdata as [-> | [d [-> Hget]]].
    - now apply build_request_url_absent.
    - rewrite (build_request_url_mapping c3 verb d Hv eq_refl).
      now rewrite Hget. }
  rewrite Hurl. repeat split.
Qed.

(** X7.  [build_request] returns exactly when the URL can be built from the
    parameters, the access token can be had, and [prepare] does not raise
    for the request made of them.  The request it then leaves in
    [self.request] has the method of the verb, that URL, the query and the
    encoded body of the parameters, the headers with that token, and the
    files.  When [prepare] raises, [build_request] raises the same and
    [self.request] is what it was.  Either way the world and the cached
    token are as the token access leaves them. *)
Theorem build_request_succeeds :
  forall (verb : string) (data verb_attrs files : value)
         (c : Connection) (w : World),
    let after := build_request verb data verb_attrs files c w in
    (returned after = Ok tt
     <-> exists u text,
           build_request_url (set_request_dict data c) verb = Ok u
           /\ returned (access_token c w) = Ok text
           /\ prepare_raises
                (built_request verb data verb_attrs files u text
                   (siteid (config c)))
              = None)
    /\ forall u text,
        build_request_url (set_request_dict data c) verb = Ok u ->
        returned (access_token c w) = Ok text ->
        let req :=
          built_request verb data verb_attrs files u text
            (siteid (config c)) in
        (prepare_raises req = None ->
         request (conn_after after) = Some req)
        /\ (forall e, prepare_raises req = Some e ->
                      returned after = Raise e
                      /\ request (conn_after after) = request c)
        /\ world_after after = world_after (access_token c w)
        /\ _token (conn_after after)
           = _token (conn_after (access_token c w)).
Proof.
  intros verb data verb_attrs files c w after. subst after.
  rewrite build_request_run.
  set (m := if str_in verb ["searchByImage"; "checkCompatibility"]
            then "POST" else "GET").
  set (c3 := set_method m (set_request_dict data (set_verb (Some verb) c))).
  rewrite (build_request_url_reads c3 (set_request_dict data c) verb
             eq_refl eq_refl).
  destruct (access_token_reads c3 c w eq_refl eq_refl) as [Hr [Hw Ht]].
  pose proof (access_token_only_token c3 w) as Hframe.
  destruct (build_request_url (set_request_dict data c) verb) as [u | e].
  - destruct (access_token c3 w) as [[[text | e] c4] w4] eqn:E;
      unfold returned, conn_after, world_after in *; simpl in *.
    + pose proof (f_equal config Hframe) as Hcfg.
      pose proof (f_equal method Hframe) as Hm.
      pose proof (f_equal request Hframe) as Hreq.
      simpl in Hcfg, Hm, Hreq. rewrite Hcfg, Hm.
      change {| req_method := m;
                req_url := u;
                req_params := build_request_query verb data;
                req_data :=
                  smart_encode_request_data
                    (build_request_data verb data verb_attrs);
                req_headers := headers_of text (siteid (config c));
                req_files := files |}
        with (built_request verb data verb_attrs files u text
                (siteid (config c))).
      destruct (prepare_raises
                  (built_request verb data verb_attrs files u text
                     (siteid (config c)))) as [e |] eqn:Hprep; simpl.
      * split.
        -- split; [discriminate|].
           intros [u' [text' [[= <-] [Htext Hp]]]].
           rewrite <- Hr in Htext. injection Htext as <-. congruence.
        -- intros u' text' [= <-] Htext. rewrite <- Hr in Htext.
           injection Htext as <-. rewrite Hprep.
           repeat split; auto; try discriminate; congruence.
      * split.
        -- split; [intros _; exists u, text; auto | reflexivity].
        -- intros u' text' [= <-] Htext. rewrite <- Hr in Htext.
           injection Htext as <-. rewrite Hprep.
           repeat split; auto; discriminate.
    + split.
      * split; [discriminate|].
        intros [u' [text [_ [Htext _]]]]. rewrite <- Hr in Htext.
        discriminate.
      * intros u' text' _ Htext. rewrite <- Hr in Htext. discriminate.
  - split.
    + split; [discriminate | intros [u [text [Hu _]]]; discriminate].
    + intros u text Hu. discriminate.
Qed.

(** X8.  Whether it returns or raises, [build_request] leaves the verb and
    the parameters in the connection and the configuration as it was; when
    it raises, the request prepared by an earlier call is still there. *)
Theorem build_request_state :
  forall (the_verb : string) (data verb_attrs files : value)
         (c : Connection) (w : World),
    let after := build_request the_verb data verb_attrs files c w in
    verb (conn_after after) = Some the_verb
    /\ _request_dict (conn_after after) = data
    /\ config (conn_after after) = config c
    /\ (forall e, returned after = Raise e ->
                  request (conn_after after) = request c).
Proof.
  intros the_verb data verb_attrs files c w after. subst after.
  rewrite build_request_run.
  set (c3 := set_method _ _).
  pose proof (access_token_only_token c3 w) as Hframe.
  destruct (build_request_url c3 the_verb) as [u | e].
  - destruct (access_token c3 w) as [[[text | e] c4] w4];
      unfold returned, conn_after in *; simpl in *.
    + pose proof (f_equal verb Hframe) as Hv.
      pose proof (f_equal _request_dict Hframe) as Hd.
      pose proof (f_equal config Hframe) as Hc.
      pose proof (f_equal request Hframe) as Hr. simpl in Hv, Hd, Hc, Hr.
      match goal with
      | |- context [prepare_raises ?r] => destruct (prepare_raises r)
      end; simpl; repeat split; auto.
      intros e He. discriminate He.
    + pose proof (f_equal verb Hframe) as Hv.
      pose proof (f_equal _request_dict Hframe) as Hd.
      pose proof (f_equal config Hframe) as Hc.
      pose proof (f_equal request Hframe) as Hr. simpl in Hv, Hd, Hc, Hr.
      repeat split; auto.
  - repeat split.
Qed.

(** X9.  With a token cached and not expired, building a request is a local
    affair: whatever the verb and the parameters, and whether the call
    returns or raises, the world is as it was, no token request made, and
    the cached token is the same. *)
Theorem build_request_offline :
  forall (verb : string) (data verb_attrs files : value)
         (c : Connection) (w : World) (token : OAuth2Token.t),
    _token c = Some token ->
    is_expired token (now w) = false ->
    let after := build_request verb data verb_attrs files c w in
    world_after after = w
    /\ _token (conn_after after) = Some token.
Proof.
  intros verb data verb_attrs files c w token Htok Hfresh after.
  subst after. rewrite build_request_run.
  set (c3 := set_method _ _).
  assert (Htok3 : _token c3 = Some token) by exact Htok.
  rewrite (access_token_cached c3 w token Htok3 Hfresh).
  destruct (build_request_url c3 verb); [|split; auto].
  cbv zeta.
  match goal with
  | |- context [prepare_raises ?r] => destruct (prepare_raises r)
  end; split; auto.
Qed.

(** X10.  Parameters that are not a dict ([None], a list, a text) give no
    query and an empty body, for the POST verbs too; a request built from
    them carries neither. *)
Theorem no_dict_no_query_no_body :
  forall (verb : string) (data verb_attrs : value),
    isinstance_dict data = false ->
    build_request_data verb data verb_attrs = EmptyString
    /\ build_request_query verb data = None
    /\ forall (files : value) (c : Connection) (w : World) (r : Request),
        returned (build_request verb data verb_attrs files c w) = Ok tt ->
        request (conn_after (build_request verb data verb_attrs files c w))
        = Some r ->
        req_params r = None
        /\ req_data r = smart_encode_request_data EmptyString.
Proof.
  intros verb data verb_attrs Hdata.
  assert (Hbody : build_request_data verb data verb_attrs = EmptyString).
  { unfold build_request_data. rewrite Hdata.
    now rewrite andb_false_r. }
  assert (Hquery : build_request_query verb data = None).
  { unfold build_request_query. rewrite Hdata.
    now rewrite andb_false_r. }
  split; [exact Hbody|]. split; [exact Hquery|].
  intros files c w r. rewrite build_request_run.
  set (c3 := set_method _ _).
  destruct (build_request_url c3 verb) as [u | e]; [|discriminate].
  destruct (access_token c3 w) as [[[text | e] c4] w4];
    unfold returned, conn_after; simpl; [|discriminate].
  match goal with
  | |- context [prepare_raises ?r] => destruct (prepare_raises r)
  end; simpl; [discriminate|].
  intros _ [= <-]. simpl. now rewrite Hbody, Hquery.
Qed.

(** Every path of the table, and the path of a verb that is not in it,
    begins with a slash. *)
Lemma endpoint_slash (verb : string) :
  exists path,
    table_get verb endpoint_map ("/" ++ verb) = String "/" path.
Proof.
  unfold endpoint_map. cbn [table_get].
  repeat match goal with
         | |- context [String.eqb verb ?s] =>
             destruct (String.eqb verb s); [eexists; reflexivity|]
         end.
  eexists. reflexivity.
Qed.

(** X11.  Every URL [build_request_url] returns is the base URL of the
    configuration followed by a path that begins with a slash.  For a verb
    other than [getItem] and [checkCompatibility] the method never raises
    and never looks at the parameters; a verb that is not in the table of
    endpoints gets the path made of a slash and its own name. *)
Theorem build_request_url_paths :
  forall (c : Connection) (verb : string),
    (forall u, build_request_url c verb = Ok u ->
               exists path, u = base_url c ++ String "/" path)
    /\ (~ (verb = "getItem" \/ verb = "checkCompatibility") ->
        build_request_url c verb
        = Ok (base_url c ++ table_get verb endpoint_map ("/" ++ verb)))
    /\ (~ In verb (map fst endpoint_map) ->
        build_request_url c verb = Ok (base_url c ++ "/" ++ verb)).
Proof.
  intros c verb.
  assert (Hplain : ~ (verb = "getItem" \/ verb = "checkCompatibility") ->
                   build_request_url c verb
                   = Ok (base_url c
                         ++ table_get verb endpoint_map ("/" ++ verb))).
  { intros Hv. unfold build_request_url.
    destruct (str_in verb ["getItem"; "checkCompatibility"]) eqn:E;
      [|reflexivity].
    exfalso. now apply Hv, item_verb_iff. }
  split; [|split; [exact Hplain|]].
  - intros u Hu.
    destruct (str_in verb ["getItem"; "checkCompatibility"]) eqn:E.
    + apply item_verb_iff in E. revert Hu. unfold build_request_url.
      rewrite (proj2 (item_verb_iff verb) E). unfold rbind.
      destruct (if negb (truthy (_request_dict c))
                then Ok true
                else match py_contains "item_id" (_request_dict c) with
                     | Ok a => Ok (negb a)
                     | Raise e => Raise e
                     end) as [[|] | e]; try discriminate.
      destruct (py_getitem (_request_dict c) "item_id") as [item_id | e];
        [|discriminate].
      intros [= <-]. rewrite (endpoint_of_item_verb verb _ E).
      eexists. reflexivity.
    + assert (Hv : ~ (verb = "getItem" \/ verb = "checkCompatibility"))
        by (intros Hv; apply item_verb_iff in Hv; congruence).
      rewrite (Hplain Hv) in Hu. injection Hu as <-.
      destruct (endpoint_slash verb) as [path Hp]. exists path.
      f_equal. exact Hp.
  - intros Hnot.
    assert (Hv : ~ (verb = "getItem" \/ verb = "checkCompatibility")).
    { intros [-> | ->]; apply Hnot; simpl; tauto. }
    rewrite (Hplain Hv). do 2 f_equal.
    revert Hnot. unfold endpoint_map. cbn [table_get map fst].
    intros Hnot.
    repeat match goal with
           | |- context [String.eqb verb ?s] =>
               let E := fresh "E" in
               destruct (String.eqb verb s) eqn:E;
               [apply String.eqb_eq in E; exfalso; apply Hnot;
                rewrite E; simpl; tauto|]
           end.
    reflexivity.
Qed.
End WholeRequest.

(** ** The query as a dict *)

Lemma NoDup_keys_filter
    (p : string * value -> bool) (d : list (string * value)) :
  NoDup (map fst d) -> NoDup (map fst (filter p d)).
Proof.
  induction d as [|kv d IH]; simpl; [auto|].
  intros Hnd. inversion Hnd as [|? ? Hk Hd]; subst.
  destruct (p kv); simpl; [|now apply IH].
  constructor; [|now apply IH].
  intros Hin. apply Hk. apply in_map_iff in Hin.
  destruct Hin as [kv' [Hfst Hin']]. apply filter_In in Hin'.
  apply in_map_iff. exists kv'. tauto.
Qed.

Lemma dict_get_map_filter
    (f : value -> value) (p : string * value -> bool)
    (d : list (string * value)) (k : string) :
  NoDup (map fst d) ->
  dict_get k (map (fun kv => (fst kv, f (snd kv))) (filter p d))
  = match dict_get k d with
    | Some v => if p (k, v) then Some (f v) else None
    | None => None
    end.
Proof.
  induction d as [|[k0 v0] d IH]; simpl; [reflexivity|].
  intros Hnd. inversion Hnd as [|? ? Hk Hd]; subst.
  destruct (String.eqb k k0) eqn:E.
  - apply String.eqb_eq in E. subst k0.
    destruct (p (k, v0)); simpl.
    + now rewrite String.eqb_refl.
    + rewrite (IH Hd).
      now rewrite (proj2 (dict_get_None_iff k d) Hk).
  - destruct (p (k0, v0)); simpl; [rewrite E|]; now apply IH.
Qed.

Section QueryLookup.
Context `{Imports}.

(** X12.  For a verb that is not a POST verb, the query of a dict is again
    a dict: its keys occur once, it is no longer than the parameters, and
    looking a key up in it gives the encoded value the key has in the
    parameters, or nothing when the key is not there, has the value [None],
    or is the [item_id] of [getItem]. *)
Theorem build_request_query_lookup :
  forall (verb : string) (d : list (string * value)),
    ~ (verb = "searchByImage" \/ verb = "checkCompatibility") ->
    NoDup (map fst d) ->
    exists q,
      build_request_query verb (VDict d) = Some q
      /\ NoDup (map fst q)
      /\ (length q <= length d)%nat
      /\ forall k,
          dict_get k q
          = if String.eqb verb "getItem" && String.eqb k "item_id"
            then None
            else match dict_get k d with
                 | Some v => if is_None v then None
                             else Some (smart_encode v)
                 | None => None
                 end.
Proof.
  intros verb d Hget Hnd. eexists.
  split; [now apply build_request_query_get|]. split; [|split].
  - rewrite map_map. simpl. now apply NoDup_keys_filter.
  - rewrite length_map. apply filter_length_le.
  - intros k. rewrite (dict_get_map_filter smart_encode _ d k Hnd). simpl.
    destruct (dict_get k d) as [v|];
      destruct (String.eqb verb "getItem" && String.eqb k "item_id");
      try reflexivity.
    + now rewrite andb_false_r.
    + now rewrite andb_true_r; destruct (is_None v).
Qed.
End QueryLookup.

(** ** The extractor as a whole *)

Section Extractor.
Context `{Imports}.

(** A loop stops at the first entry that is not an object, whatever came
    before it. *)
Lemma collect_not_object
    (es : list (list (string * value))) (bad : value) (rest : list value)
    (msgs : list string) (resp_codes : list value) :
  isinstance_dict bad = false ->
  collect (map VDict es ++ bad :: rest) msgs resp_codes
  = Raise (AttributeError "get").
Proof.
  intros Hbad. revert msgs resp_codes.
  induction es as [|e es IH]; intros msgs resp_codes; simpl.
  - destruct bad; try reflexivity. discriminate.
  - apply IH.
Qed.

(** The world after the extractor got as far as the body. *)
Lemma get_resp_body_errors_world
    (c : Connection) (w : World) (the_verb : string) (r : Response)
    (response_data : value)
    (errs warns : list string) (resp_codes : list value) :
  _resp_body_errors c = [] ->
  verb c = Some the_verb ->
  response c = Some r ->
  status_code r = 200%Z ->
  json r = Ok response_data ->
  parse_body response_data = Ok (errs, warns, resp_codes) ->
  let w' := world_after (_get_resp_body_errors c w) in
  log w'
  = (log w ++ log_record (warnings (config c)) WARNING the_verb warns
     ++ log_record (errors (config c)) ERROR the_verb errs)%list
  /\ token_requests w' = token_requests w
  /\ now w' = now w
  /\ token_endpoint w' = token_endpoint w.
Proof.
  intros Hcache Hverb Hresp Hstatus Hjson Hparse.
  unfold _get_resp_body_errors, log_record. run.
  rewrite Hcache, Hverb, Hresp, Hstatus, Hjson. simpl. rewrite Hparse.
  simpl.
  destruct (warnings (config c)
            && match warns with [] => false | _ => true end),
    (errors (config c) && match errs with [] => false | _ => true end);
    simpl; rewrite <- ?app_assoc, ?app_nil_r; repeat split.
Qed.

(** A call of the extractor either leaves everything as it was, or got as
    far as the body of a 200 response and parsed it. *)
Lemma get_resp_body_errors_outcome (c : Connection) (w : World) :
  (exists result,
      _get_resp_body_errors c w = (result, c, w)
      /\ (result = Ok (_resp_body_errors c) \/ exists e, result = Raise e))
  \/ (exists the_verb r response_data errs warns resp_codes,
         _resp_body_errors c = []
         /\ verb c = Some the_verb
         /\ response c = Some r
         /\ status_code r = 200%Z
         /\ json r = Ok response_data
         /\ parse_body response_data = Ok (errs, warns, resp_codes)).
Proof.
  destruct (_resp_body_errors c) as [|x xs] eqn:Hcache.
  - destruct (verb c) as [the_verb|] eqn:Hverb.
    + destruct (response c) as [r|] eqn:Hresp.
      * destruct (Z.eqb (status_code r) 200) eqn:Hstatus.
        -- apply Z.eqb_eq in Hstatus.
           destruct (json r) as [response_data | e] eqn:Hjson.
           ++ destruct (parse_body response_data)
                as [[[errs warns] codes] | e] eqn:Hparse.
              ** right. exists the_verb, r, response_data, errs, warns, codes.
                 repeat split; auto.
              ** left. eexists. split; [|right; eexists; reflexivity].
                 unfold _get_resp_body_errors. run.
                 rewrite Hcache, Hverb, Hresp, Hstatus, Hjson. simpl.
                 rewrite Hparse. reflexivity.
           ++ left. eexists. split; [|right; eexists; reflexivity].
              unfold _get_resp_body_errors. run.
              rewrite Hcache, Hverb, Hresp, Hstatus, Hjson. reflexivity.
        -- left. eexists. split; [|left; reflexivity].
           unfold _get_resp_body_errors. run.
           rewrite Hcache, Hverb, Hresp, Hstatus. reflexivity.
      * left. eexists. split; [|right; eexists; reflexivity].
        unfold _get_resp_body_errors. run.
        rewrite Hcache, Hverb, Hresp. reflexivity.
    + left. eexists. split; [|left; reflexivity].
      unfold _get_resp_body_errors. run.
      rewrite Hcache, Hverb. reflexivity.
  - left. eexists. split; [|left; reflexivity].
    rewrite <- Hcache. apply get_resp_body_errors_cached. congruence.
Qed.

(** X13.  When the extractor raises, whatever the reason, it has recorded
    nothing and logged nothing: the connection and the world are as they
    were. *)
Theorem get_resp_body_errors_atomic :
  forall (c : Connection) (w : World) (e : exn),
    returned (_get_resp_body_errors c w) = Raise e ->
    conn_after (_get_resp_body_errors c w) = c
    /\ world_after (_get_resp_body_errors c w) = w.
Proof.
  intros c w e Hraise.
  destruct (get_resp_body_errors_outcome c w)
    as [[result [E _]]
       | [the_verb [r [data [errs [warns [codes
           [Hcache [Hverb [Hresp [Hstatus [Hjson Hparse]]]]]]]]]]]].
  - rewrite E. split; reflexivity.
  - destruct (get_resp_body_errors_parsed c w the_verb r data errs warns
                codes Hcache Hverb Hresp Hstatus Hjson Hparse) as [Hret _].
    congruence.
Qed.

(** X14.  The extractor changes nothing of the connection but the three
    attributes [_resp_body_errors], [_resp_body_warnings] and [_resp_codes],
    and nothing of the world but the log, which it only adds to: the verb,
    the response, the cached token and the list of token requests are as
    they were. *)
Theorem get_resp_body_errors_frame :
  forall (c : Connection) (w : World),
    let c' := conn_after (_get_resp_body_errors c w) in
    let w' := world_after (_get_resp_body_errors c w) in
    c' = set_resp_body (_resp_body_errors c') (_resp_body_warnings c')
           (_resp_codes c') c
    /\ token_requests w' = token_requests w
    /\ now w' = now w
    /\ exists records, log w' = (log w ++ records)%list.
Proof.
  intros c w c' w'. subst c' w'.
  destruct (get_resp_body_errors_outcome c w)
    as [[result [E _]]
       | [the_verb [r [data [errs [warns [codes
           [Hcache [Hverb [Hresp [Hstatus [Hjson Hparse]]]]]]]]]]]].
  - rewrite E. unfold conn_after, world_after. simpl.
    rewrite set_resp_body_same. repeat split.
    exists []. now rewrite app_nil_r.
  - destruct (get_resp_body_errors_parsed c w the_verb r data errs warns
                codes Hcache Hverb Hresp Hstatus Hjson Hparse) as [_ Hconn].
    destruct (get_resp_body_errors_world c w the_verb r data errs warns
                codes Hcache Hverb Hresp Hstatus Hjson Hparse)
      as [Hlog [Hreq [Hnow _]]].
    rewrite Hconn. repeat split; auto.
    eexists. exact Hlog.
Qed.

(** X15.  What the extractor logs for a body it parses, on a connection with
    a verb set and no body errors cached: one warning record with the
    messages of the warnings, when the configuration has [warnings] on and
    there is a warning, and after it one error record with the messages of
    the errors, when it has [errors] on and there is an error; each record
    is the verb, a colon and the messages one to a line.  Nothing else is
    added to the log. *)
Theorem get_resp_body_errors_log :
  forall (c : Connection) (w : World) (the_verb : string) (r : Response)
         (body : list (string * value))
         (es ws : list (list (string * value))),
    _resp_body_errors c = [] ->
    verb c = Some the_verb ->
    response c = Some r ->
    status_code r = 200%Z ->
    json r = Ok (VDict body) ->
    dict_get_default "errors" body (VList []) = VList (map VDict es) ->
    dict_get_default "warnings" body (VList []) = VList (map VDict ws) ->
    let w' := world_after (_get_resp_body_errors c w) in
    log w'
    = (log w
       ++ (if warnings (config c) && negb (Nat.eqb (length ws) 0)
           then [(WARNING,
                  (the_verb ++ ": " ++ join LF (map entry_msg ws)
                   ++ LF ++ LF)%string)]
           else [])
       ++ (if errors (config c) && negb (Nat.eqb (length es) 0)
           then [(ERROR,
                  (the_verb ++ ": " ++ join LF (map entry_msg es)
                   ++ LF ++ LF)%string)]
           else []))%list
    /\ (warnings (config c) = false -> errors (config c) = false ->
        log w' = log w)
    /\ (es = [] -> ws = [] -> log w' = log w).
Proof.
  intros c w the_verb r body es ws Hcache Hverb Hresp Hstatus Hjson
    Hes Hws w'. subst w'.
  destruct (get_resp_body_errors_world c w the_verb r (VDict body)
              _ _ _ Hcache Hverb Hresp Hstatus Hjson
              (parse_body_objects body es ws Hes Hws)) as [Hlog _].
  assert (Hrec : forall flag l (xs : list (list (string * value))),
             log_record flag l the_verb (map entry_msg xs)
             = if flag && negb (Nat.eqb (length xs) 0)
               then [(l, the_verb ++ ": " ++ join LF (map entry_msg xs)
                         ++ LF ++ LF)]
               else []).
  { intros flag l xs. unfold log_record. now destruct xs. }
  rewrite !Hrec in Hlog. split; [exact Hlog|]. split.
  - intros Hw He. rewrite Hlog, Hw, He. simpl. now rewrite app_nil_r.
  - intros -> ->. rewrite Hlog. simpl. rewrite !andb_false_r.
    now rewrite app_nil_r.
Qed.

(** X16.  Errors once extracted are kept: after a call that returned a
    list of errors that is not empty, every further call on the connection,
    in whatever world, returns the same list without looking at the
    response, changes nothing and logs nothing. *)
Theorem get_resp_body_errors_again :
  forall (c : Connection) (w : World) (errs : list string),
    returned (_get_resp_body_errors c w) = Ok errs ->
    errs <> [] ->
    let c' := conn_after (_get_resp_body_errors c w) in
    _resp_body_errors c' = errs
    /\ forall (w2 : World) (r2 : option Response),
        _get_resp_body_errors (set_response r2 c') w2
        = (Ok errs, set_response r2 c', w2).
Proof.
  intros c w errs Hret Hne c'. subst c'.
  assert (Hkept : _resp_body_errors (conn_after (_get_resp_body_errors c w))
                  = errs).
  { destruct (get_resp_body_errors_outcome c w)
      as [[result [E Hresult]]
         | [the_verb [r [data [errs' [warns [codes
             [Hcache [Hverb [Hresp [Hstatus [Hjson Hparse]]]]]]]]]]]].
    - rewrite E in Hret |- *. unfold returned, conn_after in *.
      simpl in *. subst result.
      destruct Hresult as [[= <-] | [e [=]]]. reflexivity.
    - destruct (get_resp_body_errors_parsed c w the_verb r data errs' warns
                  codes Hcache Hverb Hresp Hstatus Hjson Hparse)
        as [Hret' Hconn].
      rewrite Hconn. simpl. congruence. }
  split; [exact Hkept|].
  intros w2 r2.
  rewrite <- Hkept at 1.
  apply (get_resp_body_errors_cached
           (set_response r2 (conn_after (_get_resp_body_errors c w))) w2).
  simpl. now rewrite Hkept.
Qed.

(** X17.  Warnings are not kept that way.  When the body of a 200 response
    has warnings and no error, a call returns no error, and a further call
    on the connection parses the body again, returns no error again and,
    with [warnings] on in the configuration, logs the same warnings once
    more. *)
Theorem get_resp_body_errors_warnings_again :
  forall (c : Connection) (w : World) (the_verb : string) (r : Response)
         (body : list (string * value))
         (ws : list (list (string * value))),
    _resp_body_errors c = [] ->
    verb c = Some the_verb ->
    response c = Some r ->
    status_code r = 200%Z ->
    json r = Ok (VDict body) ->
    dict_get_default "errors" body (VList []) = VList [] ->
    dict_get_default "warnings" body (VList []) = VList (map VDict ws) ->
    ws <> [] ->
    warnings (config c) = true ->
    let record :=
      (WARNING,
       the_verb ++ ": " ++ join LF (map entry_msg ws) ++ LF ++ LF) in
    let c' := conn_after (_get_resp_body_errors c w) in
    returned (_get_resp_body_errors c w) = Ok []
    /\ log (world_after (_get_resp_body_errors c w))
       = (log w ++ [record])%list
    /\ forall (w2 : World),
        returned (_get_resp_body_errors c' w2) = Ok []
        /\ conn_after (_get_resp_body_errors c' w2) = c'
        /\ log (world_after (_get_resp_body_errors c' w2))
           = (log w2 ++ [record])%list.
Proof.
  intros c w the_verb r body ws Hcache Hverb Hresp Hstatus Hjson
    Hes Hws Hne Hflag record c'. subst record c'.
  pose proof (parse_body_objects body [] ws Hes Hws) as Hparse.
  simpl in Hparse.
  assert (Hcall : forall c0 w0,
             _resp_body_errors c0 = [] -> verb c0 = Some the_verb ->
             response c0 = Some r -> config c0 = config c ->
             returned (_get_resp_body_errors c0 w0) = Ok []
             /\ conn_after (_get_resp_body_errors c0 w0)
                = set_resp_body [] (map entry_msg ws)
                    (add_codes (map entry_code ws) []) c0
             /\ log (world_after (_get_resp_body_errors c0 w0))
                = (log w0
                   ++ [(WARNING,
                        (the_verb ++ ": " ++ join LF (map entry_msg ws)
                         ++ LF ++ LF)%string)])%list).
  { intros c0 w0 Hcache0 Hverb0 Hresp0 Hcfg0.
    destruct (get_resp_body_errors_parsed c0 w0 the_verb r (VDict body)
                _ _ _ Hcache0 Hverb0 Hresp0 Hstatus Hjson Hparse)
      as [Hret Hconn].
    destruct (get_resp_body_errors_world c0 w0 the_verb r (VDict body)
                _ _ _ Hcache0 Hverb0 Hresp0 Hstatus Hjson Hparse)
      as [Hlog _].
    split; [exact Hret|]. split; [exact Hconn|].
    rewrite Hlog, Hcfg0, Hflag. unfold log_record.
    destruct ws as [|w1 ws']; [now elim Hne|]. simpl.
    rewrite ?andb_false_r, ?app_nil_r. reflexivity. }
  destruct (Hcall c w Hcache Hverb Hresp eq_refl) as [Hret [Hconn Hlog]].
  split; [exact Hret|]. split; [exact Hlog|].
  intros w2. rewrite Hconn.
  destruct (Hcall (set_resp_body [] (map entry_msg ws)
                     (add_codes (map entry_code ws) []) c) w2
              eq_refl Hverb Hresp eq_refl) as [Hret2 [Hconn2 Hlog2]].
  split; [exact Hret2|]. split; [|exact Hlog2].
  rewrite Hconn2. reflexivity.
Qed.

(** X18.  Bodies the extractor cannot read, on a connection with a verb set
    and no body errors cached, for a 200 response.  What [json()] raises is
    raised on; a body that is not a JSON object, and an entry of [errors]
    that is not one, after however many that are, end in an
    [AttributeError]; [errors] being [null], a boolean or a number ends in
    a [TypeError].  Each time the connection and the world are as they
    were. *)
Theorem get_resp_body_errors_malformed :
  forall (c : Connection) (w : World) (the_verb : string) (r : Response),
    _resp_body_errors c = [] ->
    verb c = Some the_verb ->
    response c = Some r ->
    status_code r = 200%Z ->
    (forall e, json r = Raise e ->
               _get_resp_body_errors c w = (Raise e, c, w))
    /\ (forall response_data,
           json r = Ok response_data ->
           isinstance_dict response_data = false ->
           exists msg,
             _get_resp_body_errors c w = (Raise (AttributeError msg), c, w))
    /\ (forall body v,
           json r = Ok (VDict body) ->
           dict_get "errors" body = Some v ->
           v = VNone \/ (exists b, v = VBool b) \/ (exists n, v = VInt n) ->
           exists msg,
             _get_resp_body_errors c w = (Raise (TypeError msg), c, w))
    /\ (forall body es bad rest,
           json r = Ok (VDict body) ->
           dict_get "errors" body
           = Some (VList (map VDict es ++ bad :: rest)%list) ->
           isinstance_dict bad = false ->
           exists msg,
             _get_resp_body_errors c w = (Raise (AttributeError msg), c, w)).
Proof.
  intros c w the_verb r Hcache Hverb Hresp Hstatus.
  assert (Hrun : forall result,
             rbind (json r) parse_body = Raise result ->
             _get_resp_body_errors c w = (Raise result, c, w)).
  { intros result. unfold _get_resp_body_errors. run.
    rewrite Hcache, Hverb, Hresp, Hstatus. simpl.
    destruct (json r) as [data | e]; simpl; [|now intros [= ->]].
    destruct (parse_body data); [discriminate | now intros [= ->]]. }
  split; [|split; [|split]].
  - intros e Hjson. apply Hrun. now rewrite Hjson.
  - intros data Hjson Hdata. eexists. apply Hrun. rewrite Hjson. simpl.
    destruct data; try reflexivity. discriminate.
  - intros body v Hjson Hget Hv. eexists. apply Hrun. rewrite Hjson.
    simpl. unfold dict_get_default. rewrite Hget.
    destruct Hv as [-> | [[b ->] | [n ->]]]; reflexivity.
  - intros body es bad rest Hjson Hget Hbad. eexists. apply Hrun.
    rewrite Hjson. simpl. unfold dict_get_default. rewrite Hget. simpl.
    now rewrite collect_not_object.
Qed.
End Extractor.

(** ** The response error *)

(** X19.  [process_response] does not clear an error.  For a 200 response it
    changes nothing at all; so the reason phrase recorded for a response
    that was not 200 is still in [_response_error] after a later 200
    response on the same connection was processed.  Without a response the
    call raises an [AttributeError] and changes nothing. *)
Theorem process_response_keeps_error :
  forall (c : Connection) (w : World) (parse_response : bool),
    (forall r, response c = Some r -> status_code r = 200%Z ->
               process_response parse_response c w = (Ok tt, c, w))
    /\ (forall r r2 w2 parse_response2,
           response c = Some r -> status_code r <> 200%Z ->
           status_code r2 = 200%Z ->
           let c2 :=
             set_response (Some r2)
               (conn_after (process_response parse_response c w)) in
           process_response parse_response2 c2 w2 = (Ok tt, c2, w2)
           /\ _response_error c2 = Some (reason r))
    /\ (response c = None ->
        exists msg,
          process_response parse_response c w
          = (Raise (AttributeError msg), c, w)).
Proof.
  intros c w parse_response. split; [|split].
  - intros r Hresp Hstatus. unfold process_response. run.
    now rewrite Hresp, Hstatus.
  - intros r r2 w2 parse_response2 Hresp Hstatus Hstatus2 c2. subst c2.
    unfold process_response. run. rewrite Hresp.
    apply Z.eqb_neq in Hstatus. rewrite Hstatus. simpl.
    now rewrite Hstatus2.
  - intros Hresp. eexists. unfold process_response. run.
    now rewrite Hresp.
Qed.

(** ** The further properties at work *)

Lemma access_token_frame_witness :
  (length (token_requests
             (world_after
                (@access_token python3 (new_connection test_config)
                   test_world))) <= 1)%nat.
Proof.
  exact (proj2 (proj2 (proj2 (proj2
           (@access_token_frame python3 (new_connection test_config)
              test_world))))).
Defined.

Lemma access_token_failure_keeps_connection_witness :
  conn_after
    (@access_token python3 (set_token (Some test_token)
                              (new_connection no_credentials_config))
       {| now := 9000; token_endpoint := token_endpoint test_world;
          token_requests := []; log := [] |})
  = set_token (Some test_token) (new_connection no_credentials_config).
Proof.
  apply (@access_token_failure_keeps_connection python3 _ _
           (ValueError
              "appid (client id) and certid (client secret) are required for OAuth")).
  reflexivity.
Defined.

(** The mock of the test suite: the exception is not wrapped. *)
Lemma access_token_other_exception_witness :
  @access_token python3 (new_connection test_config) failing_world
  = (Raise (OtherException "OAuth error"), new_connection test_config,
     add_token_request (token_request (new_connection test_config))
       failing_world).
Proof.
  apply (@access_token_other_exception python3 (new_connection test_config)
           failing_world (OtherException "OAuth error")
           (or_introl eq_refl) eq_refl eq_refl eq_refl);
    intros msg; discriminate.
Defined.

Lemma access_token_reused_witness :
  @access_token python3
    (conn_after (@access_token python3 (new_connection test_config)
                   test_world))
    test_world
  = (Ok "new_token",
     conn_after (@access_token python3 (new_connection test_config)
                   test_world),
     test_world).
Proof.
  apply (proj2 (@access_token_reused python3 (new_connection test_config)
                  test_world "new_token" eq_refl)).
  intros token Htok. vm_compute in Htok. injection Htok as <-.
  reflexivity.
Defined.

Lemma build_request_headers_token_witness :
  exists token,
    _token (conn_after (@build_request_headers python3 "search"
                          cached_connection test_world)) = Some token
    /\ @headers_of python3 "test_token" "EBAY_US"
       = @headers_of python3 (OAuth2Token.access_token token) "EBAY_US".
Proof.
  exact (proj2 (proj2 (proj2
           (@build_request_headers_token python3 "search"
              cached_connection test_world)))
           (@headers_of python3 "test_token" "EBAY_US") eq_refl).
Defined.

(** [getItem] without an item id on a connection without a token: no token
    is asked for. *)
Lemma build_request_missing_item_id_witness :
  returned (@build_request python3 "getItem" (VDict []) VNone VNone
              (new_connection test_config) test_world)
  = Raise (ValueError
             "item_id is required for getItem and checkCompatibility")
  /\ world_after (@build_request python3 "getItem" (VDict []) VNone VNone
                    (new_connection test_config) test_world)
     = test_world.
Proof.
  destruct (@build_request_missing_item_id python3 "getItem" (VDict [])
              VNone VNone (new_connection test_config) test_world
              (or_introl eq_refl)
              (or_intror (ex_intro _ [] (conj eq_refl eq_refl))))
    as [Hret [Hworld _]].
  split; [exact Hret | exact Hworld].
Defined.

Lemma build_request_succeeds_witness :
  returned (@build_request python3 "search" (VDict [("q", VStr "test")])
              VNone VNone cached_connection test_world)
  = Ok tt
  /\ returned (@build_request python3 "search"
                 (VDict [("q", VStr "test")]) VNone
                 (VDict [("file", VStr "image.jpg")])
                 cached_connection test_world)
     = Raise (ValueError "Data must not be a string.").
Proof.
  split.
  - apply (proj2 (proj1 (@build_request_succeeds python3 "search"
                           (VDict [("q", VStr "test")]) VNone VNone
                           cached_connection test_world))).
    exists "https://api.ebay.com/buy/browse/v1/item_summary/search",
      "test_token".
    repeat split.
  - apply (proj1 (proj2 (proj2 (@build_request_succeeds python3 "search"
                                  (VDict [("q", VStr "test")]) VNone
                                  (VDict [("file", VStr "image.jpg")])
                                  cached_connection test_world)
                           "https://api.ebay.com/buy/browse/v1/item_summary/search"
                           "test_token" eq_refl eq_refl))
             (ValueError "Data must not be a string.") eq_refl).
Defined.

Lemma build_request_state_witness :
  verb (conn_after (@build_request python3 "getItem" (VDict []) VNone VNone
                      cached_connection test_world))
  = Some "getItem"
  /\ request (conn_after (@build_request python3 "getItem" (VDict []) VNone
                            VNone cached_connection test_world))
     = None.
Proof.
  split.
  - exact (proj1 (@build_request_state python3 "getItem" (VDict []) VNone
                    VNone cached_connection test_world)).
  - apply (proj2 (proj2 (proj2
             (@build_request_state python3 "getItem" (VDict []) VNone VNone
                cached_connection test_world)))
             (ValueError
                "item_id is required for getItem and checkCompatibility")).
    reflexivity.
Defined.

Lemma build_request_offline_witness :
  world_after (@build_request python3 "search" (VDict [("q", VStr "test")])
                 VNone VNone cached_connection test_world)
  = test_world.
Proof.
  exact (proj1 (@build_request_offline python3 "search"
                  (VDict [("q", VStr "test")]) VNone VNone
                  cached_connection test_world test_token
                  eq_refl eq_refl)).
Defined.

Lemma no_dict_no_query_no_body_witness :
  @build_request_data python3 "searchByImage" VNone VNone = EmptyString
  /\ @build_request_query python3 "search" (VList [VStr "q"]) = None.
Proof.
  split.
  - exact (proj1 (@no_dict_no_query_no_body python3 "searchByImage" VNone
                    VNone eq_refl)).
  - exact (proj1 (proj2 (@no_dict_no_query_no_body python3 "search"
                           (VList [VStr "q"]) VNone eq_refl))).
Defined.

(** A verb the table does not know. *)
Lemma build_request_url_paths_witness :
  @build_request_url python3 (new_connection test_config) "getItemByGtin"
  = Ok "https://api.ebay.com/buy/browse/v1/getItemByGtin".
Proof.
  apply (proj2 (proj2 (@build_request_url_paths python3
                         (new_connection test_config) "getItemByGtin"))).
  simpl. intuition discriminate.
Defined.

Lemma build_request_query_lookup_witness :
  exists q,
    @build_request_query python3 "getItem"
      (VDict [("item_id", VInt 123); ("fieldgroups", VStr "PRODUCT");
              ("limit", VNone)])
    = Some q
    /\ dict_get "fieldgroups" q = Some (VStr "PRODUCT")
    /\ dict_get "item_id" q = None
    /\ dict_get "limit" q = None.
Proof.
  destruct (@build_request_query_lookup python3 "getItem"
              [("item_id", VInt 123); ("fieldgroups", VStr "PRODUCT");
               ("limit", VNone)])
    as [q [Hq [_ [_ Hlookup]]]].
  - intros [E | E]; discriminate.
  - repeat constructor; simpl; intuition discriminate.
  - exists q. split; [exact Hq|].
    rewrite !Hlookup. repeat split.
Defined.

Lemma get_resp_body_errors_atomic_witness :
  conn_after (@_get_resp_body_errors python3
                (search_answered response_200_not_json) test_world)
  = search_answered response_200_not_json
  /\ world_after (@_get_resp_body_errors python3
                    (search_answered response_200_not_json) test_world)
     = test_world.
Proof.
  apply (@get_resp_body_errors_atomic python3
           (search_answered response_200_not_json) test_world
           (JSONDecodeError "Expecting value")).
  reflexivity.
Defined.

Lemma get_resp_body_errors_frame_witness :
  token_requests
    (world_after (@_get_resp_body_errors python3 answered_connection
                    test_world))
  = [].
Proof.
  exact (proj1 (proj2 (@get_resp_body_errors_frame python3
                         answered_connection test_world))).
Defined.

(** One error and two warnings: the warnings are logged, then the error. *)
Lemma get_resp_body_errors_log_witness :
  map fst
    (log (world_after (@_get_resp_body_errors python3 answered_connection
                         test_world)))
  = [WARNING; ERROR].
Proof.
  rewrite (proj1 (@get_resp_body_errors_log python3 answered_connection
                    test_world "search" (response_200 test_body) test_body
                    [test_error] [test_warning; test_error]
                    eq_refl eq_refl eq_refl eq_refl eq_refl eq_refl
                    eq_refl)).
  reflexivity.
Defined.

Lemma get_resp_body_errors_again_witness :
  @_get_resp_body_errors python3 stale_connection test_world
  = (Ok ["Category: ERROR, Code: 123, Test error"], stale_connection,
     test_world).
Proof.
  apply (proj2 (@get_resp_body_errors_again python3
                  (set_verb (Some "search") no_verb_connection) test_world
                  ["Category: ERROR, Code: 123, Test error"] eq_refl
                  ltac:(discriminate))
           test_world (Some response_404)).
Defined.

Lemma get_resp_body_errors_warnings_again_witness :
  log (world_after
         (@_get_resp_body_errors python3
            (conn_after (@_get_resp_body_errors python3 warned_connection
                           test_world))
            (world_after (@_get_resp_body_errors python3 warned_connection
                            test_world))))
  = [ (WARNING,
       ("search: Category: WARNING, Code: 456, Test warning"
        ++ LF ++ LF)%string);
      (WARNING,
       ("search: Category: WARNING, Code: 456, Test warning"
        ++ LF ++ LF)%string) ].
Proof.
  destruct (@get_resp_body_errors_warnings_again python3 warned_connection
              test_world "search"
              (response_200 [("warnings", VList [VDict test_warning])])
              [("warnings", VList [VDict test_warning])] [test_warning]
              eq_refl eq_refl eq_refl eq_refl eq_refl eq_refl eq_refl
              ltac:(discriminate) eq_refl) as [_ [Hfirst Hagain]].
  destruct (Hagain (world_after (@_get_resp_body_errors python3
                                   warned_connection test_world)))
    as [_ [_ Hlog]].
  rewrite Hlog, Hfirst. reflexivity.
Defined.

Lemma get_resp_body_errors_malformed_witness :
  @_get_resp_body_errors python3 (search_answered response_200_not_json)
    test_world
  = (Raise (JSONDecodeError "Expecting value"),
     search_answered response_200_not_json, test_world)
  /\ exists msg,
      @_get_resp_body_errors python3
        (search_answered (response_200 [("errors", VNone)])) test_world
      = (Raise (TypeError msg),
         search_answered (response_200 [("errors", VNone)]), test_world).
Proof.
  split.
  - apply (proj1 (@get_resp_body_errors_malformed python3
                    (search_answered response_200_not_json) test_world
                    "search" response_200_not_json
                    eq_refl eq_refl eq_refl eq_refl)).
    reflexivity.
  - apply (proj1 (proj2 (proj2
             (@get_resp_body_errors_malformed python3
                (search_answered (response_200 [("errors", VNone)]))
                test_world "search" (response_200 [("errors", VNone)])
                eq_refl eq_refl eq_refl eq_refl)))
             [("errors", VNone)] VNone eq_refl eq_refl).
    now left.
Defined.

(** A 404 and then a 200 on the same connection: the 404 is still the
    response error. *)
Lemma process_response_keeps_error_witness :
  _response_error
    (conn_after
       (process_response true
          (set_response (Some (response_200 []))
             (conn_after
                (process_response true
                   (set_response (Some response_404)
                      (new_connection test_config))
                   test_world)))
          test_world))
  = Some "Not Found".
Proof.
  destruct (proj1 (proj2 (process_response_keeps_error
                            (set_response (Some response_404)
                               (new_connection test_config))
                            test_world true))
              response_404 (response_200 []) test_world true eq_refl
              ltac:(discriminate) eq_refl) as [Hrun Herr].
  rewrite Hrun. exact Herr.
Defined.
